(** * catkapinda: the magic-login and iyzico payment-initialisation routes

    A shallow embedding of
      - [src/app/api/payment/iyzico/initialize/route.ts]
        ([parseCartItemId], [validateBasketPrices], [POST]) and
      - [src/app/api/customer/magic-login/route.ts] ([POST]).

    JavaScript values are modelled as the language defines them:
      - a string is its sequence of UTF-16 code units;
      - a number is an IEEE-754 binary64 value, here the [spec_float] of the
        standard library instantiated at precision 53 and maximal exponent
        1024, with every arithmetic operation rounded to nearest-even;
      - [null]/[undefined] are [None];
      - awaited calls to collaborators either return or throw, and leave
        events (log lines, catalog queries, gateway calls, inserts) in a
        trace. *)

From Stdlib Require Import ZArith NArith List Bool String Ascii Lia.
From Stdlib Require Import Floats.SpecFloat.
From Stdlib Require DecimalPos.
Import ListNotations.

Set Implicit Arguments.

(* ===================================================================== *)
(** * JavaScript strings *)
(* ===================================================================== *)

Module JsString.

(** A string value: the list of its UTF-16 code units. *)
Definition jsstring := list N.

(** String literals of the source, written with ASCII text. *)
Definition lit (s : string) : jsstring :=
  map N_of_ascii (list_ascii_of_string s).

Fixpoint eqb (a b : jsstring) : bool :=
  match a, b with
  | [], [] => true
  | x :: a', y :: b' => N.eqb x y && eqb a' b'
  | _, _ => false
  end.

(** [s.startsWith(p)] *)
Fixpoint startsWith (s p : jsstring) : bool :=
  match p, s with
  | [], _ => true
  | _ :: _, [] => false
  | y :: p', x :: s' => N.eqb x y && startsWith s' p'
  end.

(** [s.split(sep)] for a separator of one code unit; the result always
    has at least one element, and [k] separators give [k+1] parts. *)
Fixpoint split (sep : N) (s : jsstring) : list jsstring :=
  match s with
  | [] => [[]]
  | c :: s' =>
      if N.eqb c sep then [] :: split sep s'
      else match split sep s' with
           | seg :: rest => (c :: seg) :: rest
           | [] => [[c]]
           end
  end.

(** The empty string is the only falsy string. *)
Definition truthy (s : jsstring) : bool :=
  match s with [] => false | _ :: _ => true end.

(** ** The code units [parseInt] and the UUID pattern look at *)

Definition underscore : N := 95.
Definition hyphen : N := 45.
Definition plus : N := 43.

(** WhiteSpace and LineTerminator of ECMAScript, as removed by
    TrimString: TAB, LF, VT, FF, CR, SP, NBSP, the Zs category and
    U+2028, U+2029, U+FEFF. *)
Definition isWhiteSpace (c : N) : bool :=
  ((9 <=? c) && (c <=? 13) || (c =? 32) || (c =? 160) || (c =? 5760)
   || (8192 <=? c) && (c <=? 8202) || (c =? 8232) || (c =? 8233)
   || (c =? 8239) || (c =? 8287) || (c =? 12288) || (c =? 65279))%N.

Fixpoint trimStart (s : jsstring) : jsstring :=
  match s with
  | c :: s' => if isWhiteSpace c then trimStart s' else s
  | [] => []
  end.

(** The value of a decimal digit, if the code unit is one. *)
Definition digit (c : N) : option Z :=
  if ((48 <=? c) && (c <=? 57))%N then Some (Z.of_N c - 48)%Z else None.

(** The longest prefix of decimal digits, as digit values. *)
Fixpoint leadingDigits (s : jsstring) : list Z :=
  match s with
  | c :: s' =>
      match digit c with
      | Some d => d :: leadingDigits s'
      | None => []
      end
  | [] => []
  end.

(** The mathematical integer a run of decimal digits denotes. *)
Definition mathInt (ds : list Z) : Z :=
  fold_left (fun acc d => 10 * acc + d)%Z ds 0%Z.

(** [[0-9a-f]] under the [i] flag: the canonicalisation of a code unit
    outside ASCII is never an ASCII letter, so exactly the ASCII hex
    digits of either case match. *)
Definition isHex (c : N) : bool :=
  ((48 <=? c) && (c <=? 57) || (97 <=? c) && (c <=? 102)
   || (65 <=? c) && (c <=? 70))%N.

(** [[0-9a-f]{n}] at the head of [s]: the rest of the input on a match. *)
Fixpoint hexRun (n : nat) (s : jsstring) : option jsstring :=
  match n with
  | O => Some s
  | S n' =>
      match s with
      | c :: s' => if isHex c then hexRun n' s' else None
      | [] => None
      end
  end.

Definition dash (s : jsstring) : option jsstring :=
  match s with
  | c :: s' => if N.eqb c hyphen then Some s' else None
  | [] => None
  end.

Definition andThen {A B} (o : option A) (k : A -> option B) : option B :=
  match o with Some a => k a | None => None end.

(** [/^[0-9a-f]{8}-[0-9a-f]{4}-[0-9a-f]{4}-[0-9a-f]{4}-[0-9a-f]{12}$/i.test(s)] *)
Definition uuidPattern_test (s : jsstring) : bool :=
  match
    andThen (hexRun 8 s) (fun r =>
    andThen (dash r) (fun r =>
    andThen (hexRun 4 r) (fun r =>
    andThen (dash r) (fun r =>
    andThen (hexRun 4 r) (fun r =>
    andThen (dash r) (fun r =>
    andThen (hexRun 4 r) (fun r =>
    andThen (dash r) (fun r =>
    hexRun 12 r))))))))
  with
  | Some [] => true
  | _ => false
  end.

End JsString.

(* ===================================================================== *)
(** * JavaScript numbers *)
(* ===================================================================== *)

Module JsNumber.

(** A Number value is an IEEE-754 binary64 datum. *)
Definition number := spec_float.

Definition prec : Z := 53.
Definition emax : Z := 1024.

Definition NaN : number := S754_nan.
Definition Infinity : number := S754_infinity false.
Definition zero : number := S754_zero false.

(** The Number value for a mathematical integer: the nearest double,
    ties to even, overflowing to an infinity. *)
Definition ofZ (z : Z) : number := binary_normalize prec emax z 0 false.

(** A decimal literal [digits * 10^-scale] of at most fifteen significant
    digits: both operands are exact doubles and the division is correctly
    rounded, which is the nearest double to the decimal. *)
Definition decimal (digits : Z) (scale : Z) : number :=
  SFdiv prec emax (ofZ digits) (ofZ (10 ^ scale)).

(** [x] is a double within half a unit in the last place of the
    fraction [num / den]: the test that a literal denotes [x]. *)
Definition roundsFrom (x : number) (num den : Z) : bool :=
  match x with
  | S754_finite false m e =>
      valid_binary prec emax x
      && (e <? 0)%Z
      && (2 * Z.abs (den * Zpos m - num * 2 ^ (- e)) <=? den)%Z
  | _ => false
  end.

Definition add (a b : number) : number := SFadd prec emax a b.
Definition sub (a b : number) : number := SFsub prec emax a b.
Definition mul (a b : number) : number := SFmul prec emax a b.

(** [Math.abs] *)
Definition Math_abs (a : number) : number := SFabs a.

(** [a > b]; false as soon as one side is NaN. *)
Definition gt (a b : number) : bool := SFltb b a.

(** [a <= b], used to read "within" in statements. *)
Definition le (a b : number) : bool := SFleb a b.

Definition isNaN (a : number) : bool :=
  match a with S754_nan => true | _ => false end.

(** ToBoolean of a number. *)
Definition truthy (a : number) : bool :=
  match a with
  | S754_nan | S754_zero _ => false
  | _ => true
  end.

(** A finite number whose value is a whole number. *)
Definition isInteger (a : number) : bool :=
  match a with
  | S754_zero _ => true
  | S754_finite _ m e =>
      (0 <=? e)%Z || (Z.land (Zpos m) (Z.ones (- e)) =? 0)%Z
  | _ => false
  end.

(** [parseFloat(x)] for an argument that is already a number: the
    argument is first converted to a string and parsed back, which gives
    the same number except that the sign of a zero is lost. *)
Definition parseFloat (x : number) : number :=
  match x with
  | S754_zero _ => S754_zero false
  | _ => x
  end.

(** [parseInt(s, 10)]: leading white space is skipped, one sign is
    read, then the longest run of decimal digits, whatever follows it;
    no digit gives NaN.  The run is read exactly, however long, and
    rounded once to a number. *)
Definition parseInt (s : JsString.jsstring) : number :=
  let s1 := JsString.trimStart s in
  let '(neg, s2) :=
    match s1 with
    | c :: r =>
        if N.eqb c JsString.hyphen then (true, r)
        else if N.eqb c JsString.plus then (false, r)
        else (false, s1)
    | [] => (false, s1)
    end in
  match JsString.leadingDigits s2 with
  | [] => NaN
  | ds =>
      let n := JsString.mathInt ds in
      if (n =? 0)%Z then S754_zero neg
      else ofZ (if neg then - n else n)%Z
  end.

End JsNumber.

(* ===================================================================== *)
(** * Awaited calls, exceptions and the trace of effects *)
(* ===================================================================== *)

Module JsAsync.
Import JsString.

Inductive Nullish :=
| JsNull
| JsUndefined.

(** What a [catch] clause can receive: [null] or [undefined], or an
    object with (or without) a [message]. *)
Inductive Thrown :=
| ThrownNullish (v : Nullish)
| ThrownObject (message : option jsstring).

(** A [TypeError] raised by the runtime itself; the texts below are the
    ones of V8, the engine of Node.js. *)
Definition TypeError (message : jsstring) : Thrown :=
  ThrownObject (Some message).

(** [Object.keys(null)] *)
Definition cannotConvert : Thrown :=
  TypeError (lit "Cannot convert undefined or null to object").

Definition nameOf (v : Nullish) : jsstring :=
  match v with
  | JsNull => lit "null"
  | JsUndefined => lit "undefined"
  end.

(** Reading [.property] off [null] or [undefined]. *)
Definition cannotRead (v : Nullish) (property : jsstring) : Thrown :=
  TypeError (lit "Cannot read properties of " ++ nameOf v
             ++ lit " (reading '" ++ property ++ lit "')").

(** The outcome of a call: it returns or it throws. *)
Inductive Awaited (A : Type) :=
| Resolved (a : A)
| Rejected (e : Thrown).
Arguments Resolved {A} a.
Arguments Rejected {A} e.

Section Effects.
(** The events a handler leaves behind. *)
Variable E : Type.

Definition Async (A : Type) : Type := (Awaited A * list E)%type.

Definition ret {A} (a : A) : Async A := (Resolved a, []).

Definition bind {A B} (m : Async A) (k : A -> Async B) : Async B :=
  match m with
  | (Resolved a, t) => let '(r, t') := k a in (r, t ++ t')
  | (Rejected e, t) => (Rejected e, t)
  end.

Definition emit (ev : E) : Async unit := (Resolved tt, [ev]).

Definition await {A} (o : Awaited A) : Async A := (o, []).

Definition throw {A} (e : Thrown) : Async A := (Rejected e, []).

(** [try { m } catch (e) { h e }] *)
Definition tryCatch {A} (m : Async A) (h : Thrown -> Async A) : Async A :=
  match m with
  | (Resolved a, t) => (Resolved a, t)
  | (Rejected e, t) => let '(r, t') := h e in (r, t ++ t')
  end.

(** [try { m } finally { f }], for an [f] that neither returns a value
    of its own nor throws. *)
Definition tryFinally {A} (m : Async A) (f : list E) : Async A :=
  (fst m, snd m ++ f).

Definition outcome {A} (m : Async A) : Awaited A := fst m.
Definition trace {A} (m : Async A) : list E := snd m.
End Effects.

Arguments ret {E A} a.
Arguments bind {E A B} m k.
Arguments emit {E} ev.
Arguments await {E A} o.
Arguments throw {E A} e.
Arguments tryCatch {E A} m h.
Arguments tryFinally {E A} m f.
Arguments outcome {E A} m.
Arguments trace {E A} m.

(** [a || b] on optional strings: [undefined] and the empty string are
    falsy. *)
Definition orElse (a : option jsstring) (b : jsstring) : jsstring :=
  match a with
  | Some (c :: s) => c :: s
  | _ => b
  end.

Declare Scope async_scope.
Delimit Scope async_scope with async.
Notation "x <- m ;; k" := (bind m (fun x => k))
  (at level 61, m at next level, right associativity) : async_scope.
Notation "m ;;; k" := (bind m (fun _ => k))
  (at level 61, right associativity) : async_scope.

End JsAsync.

Import JsString JsNumber JsAsync.
Local Open Scope async_scope.

(* ===================================================================== *)
(** * payment/iyzico/initialize/route.ts *)
(* ===================================================================== *)

Module Initialize.

(** ** Cart item identifiers *)

(** The [string | number | null] that [parseCartItemId] returns; [null]
    is [None]. *)
Inductive ProductId :=
| PidNumber (n : number)
| PidString (s : jsstring).

(** Nothing in the body of the [try] can throw on a string argument, so
    the [catch] of the source is never entered. *)
Definition parseCartItemId (cartItemId : jsstring) : option ProductId :=
  let direct :=
    let numericId := parseInt cartItemId in
    if negb (isNaN numericId) && gt numericId zero then
      Some (PidNumber numericId)
    else if uuidPattern_test cartItemId then
      Some (PidString cartItemId)
    else None in
  if startsWith cartItemId (lit "cart_") then
    let parts := split underscore cartItemId in
    if (2 <=? List.length parts)%nat then
      match nth_error parts 1 with
      | Some productIdPart =>
          let legacyId := parseInt productIdPart in
          if negb (isNaN legacyId) && gt legacyId zero then
            Some (PidNumber legacyId)
          else Some (PidString productIdPart)
      | None => direct
      end
    else direct
  else direct.

(** [!actualProductId] is false exactly on these. *)
Definition pidTruthy (p : option ProductId) : bool :=
  match p with
  | None => false
  | Some (PidNumber n) => JsNumber.truthy n
  | Some (PidString s) => JsString.truthy s
  end.

(** ** The basket and the catalog *)

Record BasketItem := {
  item_id : jsstring;
  item_name : jsstring;
  item_category : jsstring;
  item_price : number
}.

(** A row of [products], with the columns the validator selects; the
    price is the number the database client delivers. *)
Record Product := {
  product_id : jsstring;
  product_name : jsstring;
  product_price : number;
  product_legacy_id : option number
}.

(** [.from('products').select(..).eq(column, value).single()] *)
Inductive Query :=
| EqLegacyId (legacy_id : number)
| EqId (id : jsstring).

(** [typeof actualProductId === 'number'] chooses the column. *)
Definition queryFor (p : ProductId) : Query :=
  match p with
  | PidNumber n => EqLegacyId n
  | PidString s => EqId s
  end.

(** The texts of the validator's [message], by template. *)
Inductive Message :=
| InvalidIdFormat (cartItemId : jsstring)
| ProductNotFound (itemName cartItemId : jsstring) (productId : ProductId)
| PriceManipulation (productName : jsstring) (dbPrice clientPrice : number)
| ValidationFailure.

(** The two shapes of object the validator returns. *)
Inductive Validation :=
| Valid (validatedItems : list BasketItem) (calculatedTotal : number)
| Invalid (message : Message).

Definition isValid (v : Validation) : bool :=
  match v with Valid _ _ => true | Invalid _ => false end.
Definition message (v : Validation) : option Message :=
  match v with Valid _ _ => None | Invalid m => Some m end.
Definition validatedItems (v : Validation) : option (list BasketItem) :=
  match v with Valid l _ => Some l | Invalid _ => None end.
Definition calculatedTotal (v : Validation) : option number :=
  match v with Valid _ t => Some t | Invalid _ => None end.

(** ** The checkout payload, as [paymentRequestSchema] lays it out *)

Record Buyer := {
  buyer_name : jsstring; buyer_surname : jsstring; buyer_email : jsstring;
  buyer_phone : option jsstring; buyer_identityNumber : jsstring;
  buyer_address : jsstring; buyer_city : jsstring; buyer_country : jsstring;
  buyer_zipCode : option jsstring
}.

Record Address := {
  contactName : jsstring; address : jsstring; city : jsstring;
  country : jsstring; zipCode : option jsstring
}.

Record Card := {
  cardHolderName : jsstring; cardNumber : jsstring; expireMonth : jsstring;
  expireYear : jsstring; cvc : jsstring; saveCard : bool;
  cardAlias : option jsstring
}.

Record PaymentRequest := {
  orderNumber : jsstring;
  amount : number;
  currency : jsstring;
  installment : number;
  userId : option jsstring;
  basketItems : list BasketItem;
  buyer : Buyer;
  billingAddress : Address;
  shippingAddress : Address;
  card : Card;
  callbackUrl : option jsstring;
  ipAddress : option jsstring;
  userAgent : option jsstring
}.

(** The result object of the gateway. *)
Record PaymentResult := {
  success : bool;
  paymentId : option jsstring;
  conversationId : option jsstring;
  htmlContent : option jsstring;
  threeDSHtmlContent : option jsstring;
  errorMessage : option jsstring;
  errorCode : option jsstring
}.

Inductive Table := payment_transactions | orders.

(** ** Effects *)

Inductive Level := info | error.

(** One constructor per [logger] call of the file. *)
Inductive LogLine :=
| StartingPriceValidation (itemCount : nat) (items : list (jsstring * number))
| InvalidCartItemId (item : BasketItem)
| ParsedProductId (cartItemId : jsstring) (actualProductId : ProductId)
| ProductNotFoundInDatabase (item : BasketItem) (actualProductId : ProductId)
| PriceManipulationDetected (product : Product)
    (dbPrice clientPrice difference toleranceThreshold : number)
| ItemPriceValidated (product : Product) (validatedPrice : number)
| AllItemsValidated (itemCount : nat) (calculatedTotal : number)
| PriceValidationError (e : Thrown)
| CallStarted
| BodyReceived
| RequestValidationError
| RequestValidated (orderNumber : jsstring)
| SupabaseClientCreated
| PriceValidationFailed (m : Message) (orderNumber : jsstring)
    (clientBasket : list BasketItem)
| TotalManipulationDetected (validatedTotal clientTotal difference : number)
    (orderNumber : jsstring)
| PriceValidationPassed (validatedTotal : number) (itemCount : nat)
| SettingsMissing
| SettingsLoaded
| CallbackSet (callbackUrl ipAddress : option jsstring)
| ServiceCreated
| PaymentStarting (orderNumber : jsstring)
| PaymentFinished (result : PaymentResult)
| TransactionSaveError (orderNumber : jsstring)
| TransactionSaved (orderNumber : jsstring)
| OrderSaveError (orderNumber : jsstring)
| OrderSaved (orderNumber : jsstring)
| TransactionCreateError (e : Thrown) (orderNumber : jsstring)
| PaymentInitSucceeded (result : PaymentResult)
| PaymentInitFailed (result : PaymentResult)
| UnexpectedFailure (message : option jsstring)
| CallCompleted.

Inductive Event :=
| Log (level : Level) (line : LogLine)
| CatalogQuery (q : Query)
| GatewayCall (r : PaymentRequest)
| Insert (t : Table) (r : PaymentRequest) (res : PaymentResult).

Definition IO := Async Event.

Definition logger (level : Level) (line : LogLine) : IO unit :=
  emit (Log level line).

(** The database client: a lookup answers with at most one row or
    throws; an insert answers with its [error] or throws. *)
Record Supabase := {
  products_single : Query -> Awaited (option Product);
  insert : Table -> PaymentRequest -> PaymentResult ->
           Awaited (option jsstring)
}.

Definition select (supabase : Supabase) (q : Query) : IO (option Product) :=
  emit (CatalogQuery q) ;;; await (products_single supabase q).

(** ** validateBasketPrices *)

Definition tolerancePercentage : number := decimal 1 2.

(** The [for ... of] loop, with its two accumulators. *)
Fixpoint validateLoop (supabase : Supabase) (items : list BasketItem)
    (validatedItems : list BasketItem) (calculatedTotal : number)
    : IO Validation :=
  match items with
  | [] =>
      logger info
        (AllItemsValidated (List.length validatedItems) calculatedTotal) ;;;
      ret (Valid validatedItems calculatedTotal)
  | item :: rest =>
      let actualProductId := parseCartItemId (item_id item) in
      let invalidId :=
        logger error (InvalidCartItemId item) ;;;
        ret (Invalid (InvalidIdFormat (item_id item))) in
      if negb (pidTruthy actualProductId) then invalidId
      else
        match actualProductId with
        | None => invalidId
        | Some pid =>
            logger info (ParsedProductId (item_id item) pid) ;;;
            product <- select supabase (queryFor pid) ;;
            match product with
            | None =>
                logger error (ProductNotFoundInDatabase item pid) ;;;
                ret (Invalid (ProductNotFound (item_name item)
                                (item_id item) pid))
            | Some product =>
                let dbPrice := parseFloat (product_price product) in
                let clientPrice := parseFloat (item_price item) in
                let priceDifference := Math_abs (sub dbPrice clientPrice) in
                if gt priceDifference (mul dbPrice tolerancePercentage) then
                  logger error
                    (PriceManipulationDetected product dbPrice clientPrice
                       priceDifference (mul dbPrice tolerancePercentage)) ;;;
                  ret (Invalid (PriceManipulation (product_name product)
                                  dbPrice clientPrice))
                else
                  let validatedItems' :=
                    validatedItems ++
                    [{| item_id := product_id product;
                        item_name := product_name product;
                        item_category := item_category item;
                        item_price := dbPrice |}] in
                  let calculatedTotal' := add calculatedTotal dbPrice in
                  logger info (ItemPriceValidated product dbPrice) ;;;
                  validateLoop supabase rest validatedItems' calculatedTotal'
            end
        end
  end.

Definition validateBasketPrices (supabase : Supabase)
    (basketItems : list BasketItem) : IO Validation :=
  tryCatch
    (logger info
       (StartingPriceValidation (List.length basketItems)
          (map (fun item => (item_id item, item_price item)) basketItems)) ;;;
     validateLoop supabase basketItems [] zero)
    (fun e =>
       logger error (PriceValidationError e) ;;;
       ret (Invalid ValidationFailure)).

(** ** POST *)

(** The parsed JSON body, as [Object.keys] (which throws on [null]) and
    [paymentRequestSchema.safeParse] classify it. *)
Inductive Body :=
| JsonNull
| SchemaViolation (errors : list jsstring)
| Conforming (data : PaymentRequest).

Record Request := {
  json : Awaited Body;
  nextUrl_origin : jsstring;
  ip : option jsstring;
  header_user_agent : option jsstring
}.

Record IyzicoService := {
  initiate3DSecurePayment : PaymentRequest -> Awaited PaymentResult
}.

(** The body of each JSON answer, by shape. *)
Inductive ResponseBody :=
| InvalidDataFormat (details : list jsstring)
| SecurityCheckFailed (m : Message)
| TotalManipulation (validatedTotal clientTotal : number)
| GatewayNotActive
| ThreeDSecureStarted
    (paymentId conversationId htmlContent threeDSHtmlContent : option jsstring)
| PaymentNotStarted (error : jsstring) (errorCode : option jsstring)
| UnexpectedServerError.

Record Response := { status : Z; body : ResponseBody }.

Definition NextResponse_json (b : ResponseBody) (st : Z) : Response :=
  {| status := st; body := b |}.

Definition set_basketItems (r : PaymentRequest) (l : list BasketItem) :=
  {| orderNumber := orderNumber r; amount := amount r;
     currency := currency r; installment := installment r;
     userId := userId r; basketItems := l; buyer := buyer r;
     billingAddress := billingAddress r;
     shippingAddress := shippingAddress r; card := card r;
     callbackUrl := callbackUrl r; ipAddress := ipAddress r;
     userAgent := userAgent r |}.

Definition set_amount (r : PaymentRequest) (a : number) :=
  {| orderNumber := orderNumber r; amount := a;
     currency := currency r; installment := installment r;
     userId := userId r; basketItems := basketItems r; buyer := buyer r;
     billingAddress := billingAddress r;
     shippingAddress := shippingAddress r; card := card r;
     callbackUrl := callbackUrl r; ipAddress := ipAddress r;
     userAgent := userAgent r |}.

Definition set_context (r : PaymentRequest) (cb ipa ua : jsstring) :=
  {| orderNumber := orderNumber r; amount := amount r;
     currency := currency r; installment := installment r;
     userId := userId r; basketItems := basketItems r; buyer := buyer r;
     billingAddress := billingAddress r;
     shippingAddress := shippingAddress r; card := card r;
     callbackUrl := Some cb; ipAddress := Some ipa;
     userAgent := Some ua |}.

(** ['Odeme baslatilamadi'] with its Turkish letters. *)
Definition paymentNotStartedText : jsstring :=
  [214%N] ++ lit "deme ba" ++ [351%N] ++ lit "lat" ++ [305%N]
  ++ lit "lamad" ++ [305%N].

Section Handler.

(** The settings object of the gateway service, declared elsewhere. *)
Variable IyzicoSettings : Type.

Record Env := {
  createSupabaseServerClient : Awaited Supabase;
  getIyzicoSettingsFromEnv : Awaited (option IyzicoSettings);
  createIyzicoService : IyzicoSettings -> Awaited IyzicoService;
  NEXT_PUBLIC_APP_URL : option jsstring
}.

(** The two inserts, inside their own [try]. *)
Definition persist (supabase : Supabase) (paymentRequest : PaymentRequest)
    (paymentResult : PaymentResult) : IO unit :=
  tryCatch
    (emit (Insert payment_transactions paymentRequest paymentResult) ;;;
     transactionError <-
       await (insert supabase payment_transactions paymentRequest
                paymentResult) ;;
     match transactionError with
     | Some _ =>
         logger error (TransactionSaveError (orderNumber paymentRequest))
     | None =>
         logger info (TransactionSaved (orderNumber paymentRequest))
     end ;;;
     emit (Insert orders paymentRequest paymentResult) ;;;
     orderError <-
       await (insert supabase orders paymentRequest paymentResult) ;;
     match orderError with
     | Some _ => logger error (OrderSaveError (orderNumber paymentRequest))
     | None => logger info (OrderSaved (orderNumber paymentRequest))
     end)
    (fun transactionError =>
       logger error
         (TransactionCreateError transactionError
            (orderNumber paymentRequest))).

(** What follows the gateway's answer: the records are written when
    it reports success, and the answer decides the response. *)
Definition conclude (supabase : Supabase) (paymentRequest : PaymentRequest)
    (paymentResult : PaymentResult) : IO Response :=
  logger info (PaymentFinished paymentResult) ;;;
  (if success paymentResult
   then persist supabase paymentRequest paymentResult
   else ret tt) ;;;
  if success paymentResult then
    logger info (PaymentInitSucceeded paymentResult) ;;;
    ret (NextResponse_json
           (ThreeDSecureStarted (paymentId paymentResult)
              (conversationId paymentResult)
              (htmlContent paymentResult)
              (threeDSHtmlContent paymentResult)) 200)
  else
    logger error (PaymentInitFailed paymentResult) ;;;
    ret (NextResponse_json
           (PaymentNotStarted
              (orElse (errorMessage paymentResult) paymentNotStartedText)
              (errorCode paymentResult)) 400).

(** The body of the handler's [try]. *)
Definition tryBody (env : Env) (request : Request) : IO Response :=
  body <- await (json request) ;;
  match body with
  | JsonNull => throw cannotConvert
  | SchemaViolation errors =>
      logger info BodyReceived ;;;
      logger error RequestValidationError ;;;
      ret (NextResponse_json (InvalidDataFormat errors) 400)
  | Conforming paymentRequest =>
      logger info BodyReceived ;;;
      logger info (RequestValidated (orderNumber paymentRequest)) ;;;
      supabase <- await (createSupabaseServerClient env) ;;
      logger info SupabaseClientCreated ;;;
      priceValidation <-
        validateBasketPrices supabase (basketItems paymentRequest) ;;
      match priceValidation with
      | Invalid m =>
          logger error
            (PriceValidationFailed m (orderNumber paymentRequest)
               (basketItems paymentRequest)) ;;;
          ret (NextResponse_json (SecurityCheckFailed m) 400)
      | Valid validatedItems validatedTotal =>
          let paymentRequest :=
            set_basketItems paymentRequest validatedItems in
          let clientTotal := amount paymentRequest in
          let totalDifference :=
            Math_abs (sub validatedTotal clientTotal) in
          if gt totalDifference (decimal 1 2) then
            logger error
              (TotalManipulationDetected validatedTotal clientTotal
                 totalDifference (orderNumber paymentRequest)) ;;;
            ret (NextResponse_json
                   (TotalManipulation validatedTotal clientTotal) 400)
          else
            let paymentRequest :=
              set_amount paymentRequest validatedTotal in
            logger info
              (PriceValidationPassed validatedTotal
                 (List.length (basketItems paymentRequest))) ;;;
            settings <- await (getIyzicoSettingsFromEnv env) ;;
            match settings with
            | None =>
                logger error SettingsMissing ;;;
                ret (NextResponse_json GatewayNotActive 503)
            | Some settings =>
                logger info SettingsLoaded ;;;
                let baseUrl :=
                  orElse (NEXT_PUBLIC_APP_URL env)
                    (nextUrl_origin request) in
                let paymentRequest :=
                  set_context paymentRequest
                    (baseUrl ++ lit "/api/payment/iyzico/callback")
                    (orElse (ip request) (lit "127.0.0.1"))
                    (orElse (header_user_agent request) (lit "Unknown")) in
                logger info
                  (CallbackSet (callbackUrl paymentRequest)
                     (ipAddress paymentRequest)) ;;;
                iyzicoService <- await (createIyzicoService env settings) ;;
                logger info ServiceCreated ;;;
                logger info (PaymentStarting (orderNumber paymentRequest)) ;;;
                emit (GatewayCall paymentRequest) ;;;
                paymentResult <-
                  await (initiate3DSecurePayment iyzicoService
                           paymentRequest) ;;
                conclude supabase paymentRequest paymentResult
            end
      end
  end.

(** The handler's [catch]: it reads [error.message] and [error.stack],
    which itself throws when the caught value is nullish. *)
Definition catchClause (e : Thrown) : IO Response :=
  match e with
  | ThrownNullish v => throw (cannotRead v (lit "message"))
  | ThrownObject m =>
      logger error (UnexpectedFailure m) ;;;
      ret (NextResponse_json UnexpectedServerError 500)
  end.

Definition POST (env : Env) (request : Request) : IO Response :=
  logger info CallStarted ;;;
  tryFinally
    (tryCatch (tryBody env request) catchClause)
    [Log info CallCompleted].

End Handler.

End Initialize.

(* ===================================================================== *)
(** * customer/magic-login/route.ts *)
(* ===================================================================== *)

Module MagicLogin.

(** The parsed JSON body, as [magicLoginRequestSchema.safeParse]
    classifies it. *)
Inductive Body :=
| SchemaViolation (errors : list jsstring)
| Conforming (email : jsstring).

Record Request := { json : Awaited Body }.

(** What [generateMagicLoginLink] answers. *)
Record LinkResult := {
  success : bool;
  loginUrl : option jsstring;
  error : option jsstring
}.

Record Env := {
  NEXT_PUBLIC_APP_URL : option jsstring;
  NODE_ENV : option jsstring;
  generateMagicLoginLink : jsstring -> jsstring -> Awaited LinkResult;
  sendMagicLoginEmail : jsstring -> option jsstring -> Awaited bool
}.

Inductive ConsoleLine :=
| LinkRequested (email : jsstring)
| LinkCreated (loginUrl : option jsstring)
| MailNotSent
| MailSent
| MagicLoginError (e : Thrown).

Inductive Event :=
| Console (line : ConsoleLine)
| GenerateLink (email baseUrl : jsstring)
| SendEmail (email : jsstring) (loginUrl : option jsstring).

Definition IO := Async Event.

(** [{ success: false, error, details }] and
    [{ success: true, message, loginUrl }]; a field that is [undefined]
    is not serialised. *)
Inductive ResponseBody :=
| Failed (error : option jsstring) (details : option (list jsstring))
| Succeeded (message : jsstring) (loginUrl : option jsstring).

Record Response := { status : Z; body : ResponseBody }.

Definition NextResponse_json (b : ResponseBody) (st : Z) : Response :=
  {| status := st; body := b |}.

(** The texts of the file, with their Turkish letters as code units. *)
Definition invalidEmailText : jsstring :=
  lit "Ge" ++ [231%N] ++ lit "ersiz e-mail adresi".
Definition mailNotSentText : jsstring :=
  lit "E-mail g" ++ [246%N] ++ lit "nderilemedi. L" ++ [252%N]
  ++ lit "tfen tekrar deneyin.".
Definition confirmationText : jsstring :=
  lit "Giri" ++ [351%N] ++ lit " linki olu" ++ [351%N]
  ++ lit "turuldu ve e-mail g" ++ [246%N]
  ++ lit "nderildi. E-mail kutunuzu kontrol edin.".
Definition serverErrorPrefix : jsstring :=
  lit "Sunucu hatas" ++ [305%N] ++ lit ": ".
Definition unknownErrorText : jsstring := lit "Bilinmeyen hata".

(** [process.env.NODE_ENV === 'development'] *)
Definition isDevelopment (env : Env) : bool :=
  match NODE_ENV env with
  | Some mode => JsString.eqb mode (lit "development")
  | None => false
  end.

(** The body of the handler's [try]. *)
Definition tryBody (env : Env) (request : Request) : IO Response :=
  body <- await (json request) ;;
  match body with
  | SchemaViolation errors =>
      ret (NextResponse_json
             (Failed (Some invalidEmailText) (Some errors)) 400)
  | Conforming email =>
      let baseUrl :=
        orElse (NEXT_PUBLIC_APP_URL env) (lit "http://localhost:3000") in
      emit (Console (LinkRequested email)) ;;;
      emit (GenerateLink email baseUrl) ;;;
      result <- await (generateMagicLoginLink env email baseUrl) ;;
      if negb (success result) then
        ret (NextResponse_json (Failed (error result) None) 500)
      else
        emit (Console (LinkCreated (loginUrl result))) ;;;
        emit (SendEmail email (loginUrl result)) ;;;
        emailSent <- await (sendMagicLoginEmail env email (loginUrl result)) ;;
        if negb emailSent then
          emit (Console MailNotSent) ;;;
          ret (NextResponse_json (Failed (Some mailNotSentText) None) 500)
        else
          emit (Console MailSent) ;;;
          ret (NextResponse_json
                 (Succeeded confirmationText
                    (if isDevelopment env then loginUrl result else None))
                 200)
  end.

(** The handler's [catch]: after the console line it reads
    [error.message], which itself throws when the caught value is
    nullish. *)
Definition catchClause (e : Thrown) : IO Response :=
  emit (Console (MagicLoginError e)) ;;;
  match e with
  | ThrownNullish v => throw (cannotRead v (lit "message"))
  | ThrownObject m =>
      ret (NextResponse_json
             (Failed (Some (serverErrorPrefix ++ orElse m unknownErrorText))
                None) 500)
  end.

Definition POST (env : Env) (request : Request) : IO Response :=
  tryCatch (tryBody env request) catchClause.

End MagicLogin.

(* ===================================================================== *)
(** * Vocabulary of the statements *)
(* ===================================================================== *)

Module Reading.
Import Initialize.

(** The catalog row an item stands for: its id parses to a truthy
    product id and the lookup answers with a row. *)
Definition catalogProduct (supabase : Supabase) (item : BasketItem)
    : option Product :=
  match parseCartItemId (item_id item) with
  | Some pid =>
      if pidTruthy (Some pid) then
        match products_single supabase (queryFor pid) with
        | Resolved product => product
        | Rejected _ => None
        end
      else None
  | None => None
  end.

(** [abs(catalogPrice - clientPrice) > 0.01 * catalogPrice] *)
Definition exceedsTolerance (product : Product) (item : BasketItem) : bool :=
  gt (Math_abs (sub (product_price product) (item_price item)))
     (mul (product_price product) tolerancePercentage).

(** [abs(catalogPrice - clientPrice) <= 0.01 * catalogPrice] *)
Definition withinTolerance (product : Product) (item : BasketItem) : bool :=
  le (Math_abs (sub (product_price product) (item_price item)))
     (mul (product_price product) tolerancePercentage).

(** An item the loop lets through. *)
Definition passes (supabase : Supabase) (item : BasketItem)
    (product : Product) : Prop :=
  catalogProduct supabase item = Some product
  /\ exceedsTolerance product item = false.

(** An item as an honest client sends it: it stands for a catalog row,
    its price is positive as the schema demands, and within one percent
    of the catalog price. *)
Definition honest (supabase : Supabase) (item : BasketItem)
    (product : Product) : Prop :=
  catalogProduct supabase item = Some product
  /\ gt (item_price item) zero = true
  /\ withinTolerance product item = true.

(** The events of an item that passes. *)
Definition passTrace (item : BasketItem) (pid : ProductId)
    (product : Product) : list Event :=
  [Log info (ParsedProductId (item_id item) pid);
   CatalogQuery (queryFor pid);
   Log info (ItemPriceValidated product
               (parseFloat (product_price product)))].

(** The line of the validated basket for an item and its row. *)
Definition validated (item : BasketItem) (product : Product) : BasketItem :=
  {| item_id := product_id product;
     item_name := product_name product;
     item_category := item_category item;
     item_price := product_price product |}.

Fixpoint validatedBasket (items : list BasketItem) (products : list Product)
    : list BasketItem :=
  match items, products with
  | item :: items', product :: products' =>
      validated item product :: validatedBasket items' products'
  | _, _ => []
  end.

(** The sum of the catalog prices, added left to right from zero as
    numbers are. *)
Definition sumOfPrices (products : list Product) : number :=
  fold_left add (map product_price products) zero.

(** The three ways an item makes the loop return, with the message each
    one produces and the catalog queries it costs. *)
Inductive fails (supabase : Supabase) (item : BasketItem)
    : Message -> list Query -> Prop :=
| fails_parse :
    pidTruthy (parseCartItemId (item_id item)) = false ->
    fails supabase item (InvalidIdFormat (item_id item)) []
| fails_lookup pid :
    parseCartItemId (item_id item) = Some pid ->
    pidTruthy (Some pid) = true ->
    products_single supabase (queryFor pid) = Resolved None ->
    fails supabase item
      (ProductNotFound (item_name item) (item_id item) pid) [queryFor pid]
| fails_price pid product :
    parseCartItemId (item_id item) = Some pid ->
    pidTruthy (Some pid) = true ->
    products_single supabase (queryFor pid) = Resolved (Some product) ->
    exceedsTolerance product item = true ->
    fails supabase item
      (PriceManipulation (product_name product)
         (parseFloat (product_price product))
         (parseFloat (item_price item)))
      [queryFor pid].

(** The catalog queries of a trace, in order. *)
Fixpoint queries (t : list Event) : list Query :=
  match t with
  | CatalogQuery q :: t' => q :: queries t'
  | _ :: t' => queries t'
  | [] => []
  end.

(** The query a passing item costs. *)
Definition queryOf (item : BasketItem) : list Query :=
  match parseCartItemId (item_id item) with
  | Some pid => [queryFor pid]
  | None => []
  end.

(** The requests handed to the gateway in a trace. *)
Fixpoint gatewayCalls (t : list Event) : list PaymentRequest :=
  match t with
  | GatewayCall r :: t' => r :: gatewayCalls t'
  | _ :: t' => gatewayCalls t'
  | [] => []
  end.

Definition isPriceMismatch (o : Awaited Validation) : bool :=
  match o with
  | Resolved (Invalid (PriceManipulation _ _ _)) => true
  | _ => false
  end.

Definition isInvalidId (o : Awaited Validation) : bool :=
  match o with
  | Resolved (Invalid (InvalidIdFormat _)) => true
  | _ => false
  end.

(** What the cart branch of [parseCartItemId] makes of a segment. *)
Definition ofSegment (segment : jsstring) : ProductId :=
  let legacyId := parseInt segment in
  if negb (isNaN legacyId) && gt legacyId zero then PidNumber legacyId
  else PidString segment.

(** A positive whole number, or the infinity an overlong digit run
    rounds to. *)
Definition positiveIntegerOrInfinity (n : number) : bool :=
  gt n zero && (isInteger n || SFeqb n Infinity).

End Reading.

(* ===================================================================== *)
(** * Sample data *)
(* ===================================================================== *)

Module Sample.
Import Initialize.

(** A catalog held in a list; [.single()] answers with a row only when
    exactly one matches. *)
Definition matches (q : Query) (p : Product) : bool :=
  match q with
  | EqLegacyId n =>
      match product_legacy_id p with
      | Some l => SFeqb l n
      | None => false
      end
  | EqId s => JsString.eqb (product_id p) s
  end.

Definition catalog (rows : list Product) : Supabase :=
  {| products_single := fun q =>
       match filter (matches q) rows with
       | [row] => Resolved (Some row)
       | _ => Resolved None
       end;
     insert := fun _ _ _ => Resolved None |}.

Definition uuid1 : jsstring := lit "3fa85f64-5717-4562-b3fc-2c963f66afa6".

Definition lamp : Product :=
  {| product_id := uuid1; product_name := lit "Lamp";
     product_price := ofZ 100; product_legacy_id := Some (ofZ 1) |}.

Definition mug : Product :=
  {| product_id := lit "0b9c2f1e-8d3a-4c5b-9e7f-1a2b3c4d5e6f";
     product_name := lit "Mug";
     product_price := ofZ 50; product_legacy_id := Some (ofZ 2) |}.

Definition shop : Supabase := catalog [lamp; mug].

Definition line (id : string) (p : number) : BasketItem :=
  {| item_id := lit id; item_name := lit "item";
     item_category := lit "home"; item_price := p |}.

Definition someone : Buyer :=
  {| buyer_name := lit "Ada"; buyer_surname := lit "Kaya";
     buyer_email := lit "ada@example.com"; buyer_phone := None;
     buyer_identityNumber := lit "11111111111";
     buyer_address := lit "Moda"; buyer_city := lit "Istanbul";
     buyer_country := lit "Turkey"; buyer_zipCode := None |}.

Definition home : Address :=
  {| contactName := lit "Ada Kaya"; address := lit "Moda";
     city := lit "Istanbul"; country := lit "Turkey"; zipCode := None |}.

Definition visa : Card :=
  {| cardHolderName := lit "Ada Kaya"; cardNumber := lit "4111111111111111";
     expireMonth := lit "12"; expireYear := lit "2030"; cvc := lit "123";
     saveCard := false; cardAlias := None |}.

(** A checkout of [items] for [total]. *)
Definition checkout (items : list BasketItem) (total : number)
    : PaymentRequest :=
  {| orderNumber := lit "ORD-1"; amount := total; currency := lit "TRY";
     installment := ofZ 1; userId := None; basketItems := items;
     buyer := someone; billingAddress := home; shippingAddress := home;
     card := visa; callbackUrl := None; ipAddress := None;
     userAgent := None |}.

Definition request (b : Awaited Body) : Request :=
  {| json := b; nextUrl_origin := lit "https://shop.example";
     ip := None; header_user_agent := None |}.

Definition started : PaymentResult :=
  {| success := true; paymentId := Some (lit "p1");
     conversationId := Some (lit "c1"); htmlContent := Some (lit "<html>");
     threeDSHtmlContent := None; errorMessage := None; errorCode := None |}.

Definition gateway : IyzicoService :=
  {| initiate3DSecurePayment := fun _ => Resolved started |}.

(** A working deployment over [shop]. *)
Definition deployment : Env unit :=
  {| createSupabaseServerClient := Resolved shop;
     getIyzicoSettingsFromEnv := Resolved (Some tt);
     createIyzicoService := fun _ => Resolved gateway;
     Initialize.NEXT_PUBLIC_APP_URL := None |}.

(** A cart id whose product part is a run of 310 nines. *)
Definition overlong : jsstring := lit "cart_" ++ repeat 57%N 310.

(** Magic-login deployments that differ in [NODE_ENV] only. *)
Definition mailer (mode : option jsstring) : MagicLogin.Env :=
  {| MagicLogin.NEXT_PUBLIC_APP_URL := None;
     MagicLogin.NODE_ENV := mode;
     MagicLogin.generateMagicLoginLink := fun email baseUrl =>
       Resolved {| MagicLogin.success := true;
                   MagicLogin.loginUrl :=
                     Some (baseUrl ++ lit "/auth/magic?token=t0k3n");
                   MagicLogin.error := None |};
     MagicLogin.sendMagicLoginEmail := fun _ _ => Resolved true |}.

Definition loginRequest (b : Awaited MagicLogin.Body) : MagicLogin.Request :=
  {| MagicLogin.json := b |}.

(** A deployment whose link generator cannot reach its database. *)
Definition unreachable : jsstring :=
  lit "connect ECONNREFUSED 10.0.0.7:5432".

Definition brokenMailer : MagicLogin.Env :=
  {| MagicLogin.NEXT_PUBLIC_APP_URL := None;
     MagicLogin.NODE_ENV := Some (lit "production");
     MagicLogin.generateMagicLoginLink := fun _ _ =>
       Rejected (ThrownObject (Some unreachable));
     MagicLogin.sendMagicLoginEmail := fun _ _ => Resolved true |}.

End Sample.

(* ===================================================================== *)
(** * Observations on runs *)
(* ===================================================================== *)

Module Observing.
Import Initialize.

(** The line the loop pushes for an item and its row: the price is the
    row's price as [parseFloat] reads it. *)
Definition accepted (item : BasketItem) (product : Product) : BasketItem :=
  {| item_id := product_id product;
     item_name := product_name product;
     item_category := item_category item;
     item_price := parseFloat (product_price product) |}.

Fixpoint acceptedBasket (items : list BasketItem) (products : list Product)
    : list BasketItem :=
  match items, products with
  | item :: items', product :: products' =>
      accepted item product :: acceptedBasket items' products'
  | _, _ => []
  end.

(** The numbers of a list added left to right, as [+=] does. *)
Definition runningTotal (start : number) (prices : list number) : number :=
  fold_left add prices start.

(** An item whose lookup throws. *)
Definition lookupThrows (supabase : Supabase) (item : BasketItem)
    (e : Thrown) : Prop :=
  exists pid,
    parseCartItemId (item_id item) = Some pid
    /\ pidTruthy (Some pid) = true
    /\ products_single supabase (queryFor pid) = Rejected e.

(** A database that cannot be reached: every lookup and insert throws. *)
Definition offline : Supabase :=
  {| products_single := fun _ =>
       Rejected (ThrownObject (Some Sample.unreachable));
     insert := fun _ _ _ =>
       Rejected (ThrownObject (Some Sample.unreachable)) |}.

(** The answers by which the handler refuses a checkout before any
    payment is attempted. *)
Definition isRefusal (b : ResponseBody) : bool :=
  match b with
  | InvalidDataFormat _ | SecurityCheckFailed _ | TotalManipulation _ _
  | GatewayNotActive => true
  | _ => false
  end.

(** The inserts of a trace, in order. *)
Fixpoint inserts (t : list Event)
    : list (Table * PaymentRequest * PaymentResult) :=
  match t with
  | Insert tb r res :: t' => (tb, r, res) :: inserts t'
  | _ :: t' => inserts t'
  | [] => []
  end.

(** The same database with another behaviour of its inserts. *)
Definition withInsert (supabase : Supabase)
    (ins : Table -> PaymentRequest -> PaymentResult ->
           Awaited (option jsstring)) : Supabase :=
  {| products_single := products_single supabase; insert := ins |}.

(** The sample shop with a database that throws on every insert. *)
Definition throwingInsert : Table -> PaymentRequest -> PaymentResult ->
                            Awaited (option jsstring) :=
  fun _ _ _ => Rejected (ThrownObject (Some Sample.unreachable)).

Definition withPersistence (IyzicoSettings : Type) (env : Env IyzicoSettings)
    (ins : Table -> PaymentRequest -> PaymentResult ->
           Awaited (option jsstring)) : Env IyzicoSettings :=
  {| createSupabaseServerClient :=
       match createSupabaseServerClient env with
       | Resolved supabase => Resolved (withInsert supabase ins)
       | Rejected e => Rejected e
       end;
     getIyzicoSettingsFromEnv := getIyzicoSettingsFromEnv env;
     createIyzicoService := createIyzicoService env;
     Initialize.NEXT_PUBLIC_APP_URL := Initialize.NEXT_PUBLIC_APP_URL env |}.

(** A checkout of one lamp at its catalog price, and its request. *)
Definition paid : PaymentRequest :=
  Sample.checkout [Sample.line "1" (ofZ 100)] (ofZ 100).

Definition paidRequest : Request :=
  Sample.request (Resolved (Conforming paid)).

(** A magic-login request with a well-formed address. *)
Definition goodLogin : MagicLogin.Request :=
  Sample.loginRequest (Resolved (MagicLogin.Conforming (lit "a@b.co"))).

(** The request the handler hands to the gateway, from the client's
    checkout and the validator's answer. *)
Definition sanitized (IyzicoSettings : Type) (env : Env IyzicoSettings)
    (request : Request) (paymentRequest : PaymentRequest)
    (items : list BasketItem) (total : number) : PaymentRequest :=
  set_context (set_amount (set_basketItems paymentRequest items) total)
    (orElse (Initialize.NEXT_PUBLIC_APP_URL env) (nextUrl_origin request)
     ++ lit "/api/payment/iyzico/callback")
    (orElse (ip request) (lit "127.0.0.1"))
    (orElse (header_user_agent request) (lit "Unknown")).

(** [s.endsWith(suffix)] *)
Definition endsWith (s suffix : jsstring) : bool :=
  startsWith (rev s) (rev suffix).

(** The mails and the link requests of a magic-login trace, in order. *)
Fixpoint mails (t : list MagicLogin.Event)
    : list (jsstring * option jsstring) :=
  match t with
  | MagicLogin.SendEmail email url :: t' => (email, url) :: mails t'
  | _ :: t' => mails t'
  | [] => []
  end.

Fixpoint linkRequests (t : list MagicLogin.Event)
    : list (jsstring * jsstring) :=
  match t with
  | MagicLogin.GenerateLink email baseUrl :: t' =>
      (email, baseUrl) :: linkRequests t'
  | _ :: t' => linkRequests t'
  | [] => []
  end.

(** The code units of a decimal numeral. *)
Fixpoint unitsOf (d : Decimal.uint) : jsstring :=
  match d with
  | Decimal.Nil => []
  | Decimal.D0 d => 48%N :: unitsOf d
  | Decimal.D1 d => 49%N :: unitsOf d
  | Decimal.D2 d => 50%N :: unitsOf d
  | Decimal.D3 d => 51%N :: unitsOf d
  | Decimal.D4 d => 52%N :: unitsOf d
  | Decimal.D5 d => 53%N :: unitsOf d
  | Decimal.D6 d => 54%N :: unitsOf d
  | Decimal.D7 d => 55%N :: unitsOf d
  | Decimal.D8 d => 56%N :: unitsOf d
  | Decimal.D9 d => 57%N :: unitsOf d
  end.

(** The digit values of a decimal numeral. *)
Fixpoint valuesOf (d : Decimal.uint) : list Z :=
  match d with
  | Decimal.Nil => []
  | Decimal.D0 d => 0%Z :: valuesOf d
  | Decimal.D1 d => 1%Z :: valuesOf d
  | Decimal.D2 d => 2%Z :: valuesOf d
  | Decimal.D3 d => 3%Z :: valuesOf d
  | Decimal.D4 d => 4%Z :: valuesOf d
  | Decimal.D5 d => 5%Z :: valuesOf d
  | Decimal.D6 d => 6%Z :: valuesOf d
  | Decimal.D7 d => 7%Z :: valuesOf d
  | Decimal.D8 d => 8%Z :: valuesOf d
  | Decimal.D9 d => 9%Z :: valuesOf d
  end.

(** A positive integer written in decimal, without sign or leading
    zero, as a template literal writes a legacy id. *)
Definition render (n : positive) : jsstring := unitsOf (Pos.to_uint n).

(** The cart id format the source documents:
    [cart_${productId}_${variantId}_${timestamp}_${random}]. *)
Definition cartItemId (productId variantId timestamp random : jsstring)
    : jsstring :=
  lit "cart_" ++ productId ++ underscore :: variantId
  ++ underscore :: timestamp ++ underscore :: random.

(** No underscore in a string. *)
Definition underscoreFree (s : jsstring) : bool :=
  forallb (fun c => negb (N.eqb c underscore)) s.

(** A code unit a canonical UUID may contain. *)
Definition isUuidUnit (c : N) : bool := isHex c || N.eqb c hyphen.

(** The places of the four hyphens. *)
Definition hyphenPlaces : list nat := [8; 13; 18; 23]%nat.

(** [Number.isFinite] *)
Definition isFinite (a : number) : bool :=
  match a with
  | S754_zero _ | S754_finite _ _ _ => true
  | _ => false
  end.

(** An amount of [k] kurus, that is [k / 100] lira, as the double a JSON
    number written with two decimals is read as. *)
Definition kurus (k : Z) : number := decimal k 2.

(** The two tolerances on the amounts themselves, counted in kurus:
    [|catalogPrice - clientPrice| <= catalogPrice / 100] and
    [|validatedTotal - clientTotal| <= 0.01]. *)
Definition exactlyWithinOnePercent (catalogPrice clientPrice : Z) : Prop :=
  (100 * Z.abs (catalogPrice - clientPrice) <= catalogPrice)%Z.

Definition exactlyWithinOneKurus (validatedTotal clientTotal : Z) : Prop :=
  (Z.abs (validatedTotal - clientTotal) <= 1)%Z.

(** A second shop, which sells pins at one lira. *)
Definition pin : Product :=
  {| product_id := lit "9a1b2c3d-4e5f-4a6b-8c7d-0e1f2a3b4c5d";
     product_name := lit "Pin";
     product_price := kurus 100; product_legacy_id := Some (ofZ 7) |}.

Definition haberdashery : Env unit :=
  {| createSupabaseServerClient := Resolved (Sample.catalog [pin]);
     getIyzicoSettingsFromEnv := Resolved (Some tt);
     createIyzicoService := fun _ => Resolved Sample.gateway;
     Initialize.NEXT_PUBLIC_APP_URL := None |}.

(** A third one, whose only row has a price that does not read as a
    number. *)
Definition token : Product :=
  {| product_id := lit "5c6d7e8f-9a0b-4c1d-8e2f-3a4b5c6d7e8f";
     product_name := lit "Token";
     product_price := NaN; product_legacy_id := Some (ofZ 9) |}.

Definition arcade : Env unit :=
  {| createSupabaseServerClient := Resolved (Sample.catalog [token]);
     getIyzicoSettingsFromEnv := Resolved (Some tt);
     createIyzicoService := fun _ => Resolved Sample.gateway;
     Initialize.NEXT_PUBLIC_APP_URL := None |}.

End Observing.

(* ===================================================================== *)
(** * Facts about numbers *)
(* ===================================================================== *)

Module NumberFacts.

Lemma SFcompare_swap (a b : number) :
  SFcompare b a = option_map CompOpp (SFcompare a b).
Proof.
  destruct a as [sa | sa | | sa ma ea], b as [sb | sb | | sb mb eb];
    try destruct sa; try destruct sb; try reflexivity.
  - cbn. rewrite (Z.compare_antisym eb ea).
    destruct (eb ?= ea)%Z; cbn; try reflexivity.
    rewrite !Pos.compare_cont_spec. cbn.
    rewrite (Pos.compare_antisym mb ma).
    destruct (mb ?= ma)%positive; reflexivity.
  - cbn. rewrite (Z.compare_antisym eb ea).
    destruct (eb ?= ea)%Z; cbn; try reflexivity.
    rewrite !Pos.compare_cont_spec. cbn.
    rewrite (Pos.compare_antisym mb ma).
    destruct (mb ?= ma)%positive; reflexivity.
Qed.

(** [a <= b] rules out [a > b]. *)
Lemma le_not_gt (a b : number) : le a b = true -> gt a b = false.
Proof.
  unfold le, gt, SFleb, SFltb. rewrite (SFcompare_swap a b).
  destruct (SFcompare a b) as [[ | | ] | ]; cbn; congruence.
Qed.

Lemma tolerancePercentage_value :
  Initialize.tolerancePercentage = S754_finite false 5764607523034235 (-59).
Proof. vm_compute. reflexivity. Qed.

(** A positive number is its own [parseFloat]. *)
Lemma parseFloat_positive (c : number) :
  gt c zero = true -> parseFloat c = c.
Proof. destruct c as [s | s | | s m e]; cbn; congruence. Qed.

(** The price test does not see the sign of a zero, which is all that
    [parseFloat] changes on a number. *)
Lemma parseFloat_invisible (p c : number) :
  gt (Math_abs (sub (parseFloat p) (parseFloat c)))
     (mul (parseFloat p) Initialize.tolerancePercentage)
  = gt (Math_abs (sub p c)) (mul p Initialize.tolerancePercentage).
Proof.
  rewrite tolerancePercentage_value.
  destruct p as [sp | sp | | sp mp ep], c as [sc | sc | | sc mc ec];
    try destruct sp; try destruct sc; reflexivity.
Qed.

(** No positive client price is within one percent of a zero or NaN
    catalog price. *)
Lemma within_positive_nonzero (p c : number) :
  gt c zero = true ->
  le (Math_abs (sub p c)) (mul p Initialize.tolerancePercentage) = true ->
  parseFloat p = p.
Proof.
  rewrite tolerancePercentage_value.
  destruct p as [sp | sp | | sp mp ep]; try reflexivity.
  destruct c as [sc | sc | | sc mc ec];
    try destruct sp; try destruct sc; cbn; congruence.
Qed.

(** The decimal literals of the statements denote the doubles that
    [decimal] computes. *)
Lemma decimal_literals :
  roundsFrom (decimal 1 2) 1 100 = true
  /\ roundsFrom (decimal 10001 2) 10001 100 = true
  /\ roundsFrom (decimal 10002 2) 10002 100 = true
  /\ roundsFrom (decimal 10101 2) 10101 100 = true.
Proof. repeat split; vm_compute; reflexivity. Qed.

(** ** Integers as numbers

    The number for a mathematical integer is a whole number whenever
    it is finite: below 2^53 the mantissa is the integer shifted left,
    above it the exponent is not negative. *)

Lemma digits2_shift (m k : positive) :
  digits2_pos (Pos.iter xO m k) = (digits2_pos m + k)%positive.
Proof.
  induction k as [ | k IH] using Pos.peano_ind.
  - cbn. rewrite Pos.add_1_r. reflexivity.
  - rewrite Pos.iter_succ. cbn [digits2_pos]. rewrite IH.
    rewrite Pos.add_succ_r. reflexivity.
Qed.

Lemma shifted_low_bits (m k : positive) :
  Z.land (Zpos (Pos.iter xO m k)) (Z.ones (Zpos k)) = 0%Z.
Proof.
  assert (H : Zpos (Pos.iter xO m k) = Z.shiftl (Zpos m) (Zpos k)).
  { cbn [Z.shiftl].
    apply (Pos.iter_swap_gen _ _ Zpos xO (Z.mul 2)). reflexivity. }
  rewrite H, Z.land_ones by lia.
  rewrite Z.shiftl_mul_pow2 by lia. apply Z.mod_mul. lia.
Qed.

Lemma shr_exponent mrs e n : (e <= snd (shr mrs e n))%Z.
Proof. destruct n; cbn; lia. Qed.

Lemma binary_round_aux_exponent s mx ex lx :
  match binary_round_aux prec emax s mx ex lx with
  | S754_finite _ _ e => (ex <= e)%Z
  | _ => True
  end.
Proof.
  unfold binary_round_aux, shr_fexp.
  pose proof (shr_exponent (shr_record_of_loc mx lx) ex
                (fexp prec emax (Zdigits2 mx + ex) - ex)) as H1.
  destruct (shr (shr_record_of_loc mx lx) ex _) as [mrs' e'].
  cbn [snd] in H1.
  set (r := round_nearest_even (shr_m mrs') (loc_of_shr_record mrs')).
  pose proof (shr_exponent (shr_record_of_loc r loc_Exact) e'
                (fexp prec emax (Zdigits2 r + e') - e')) as H2.
  destruct (shr (shr_record_of_loc r loc_Exact) e' _) as [mrs'' e''].
  cbn [snd] in H2.
  destruct (shr_m mrs''); try exact I.
  destruct (e'' <=? emax - prec)%Z; [lia | exact I].
Qed.

Lemma binary_round_integer s (m : positive) :
  match binary_round prec emax s m 0 with
  | S754_finite _ _ _ as x => isInteger x = true
  | _ => True
  end.
Proof.
  unfold binary_round, shl_align.
  set (d := digits2_pos m).
  assert (Hf : fexp prec emax (Zpos d + 0) = (Zpos d - 53)%Z).
  { unfold fexp, SpecFloat.emin, prec, emax. lia. }
  rewrite Hf. rewrite Z.sub_0_r.
  destruct (Zpos d - 53)%Z as [ | k | k] eqn:Hd.
  - pose proof (binary_round_aux_exponent s (Zpos m) 0 loc_Exact) as H.
    destruct (binary_round_aux _ _ _ _ _ _) as [ | | | s' m' e']; try exact I.
    cbn. destruct (0 <=? e')%Z eqn:E; [reflexivity | lia].
  - pose proof (binary_round_aux_exponent s (Zpos m) 0 loc_Exact) as H.
    destruct (binary_round_aux _ _ _ _ _ _) as [ | | | s' m' e']; try exact I.
    cbn. destruct (0 <=? e')%Z eqn:E; [reflexivity | lia].
  - unfold binary_round_aux, shr_fexp. cbn [Zdigits2].
    rewrite digits2_shift. fold d.
    assert (Hk : (Zpos (d + k) = 53)%Z) by lia.
    rewrite Hk.
    assert (H0 : (fexp prec emax (53 + Zneg k) - Zneg k = 0)%Z).
    { unfold fexp, SpecFloat.emin, prec, emax. lia. }
    rewrite H0. cbn [shr shr_record_of_loc shr_m loc_of_shr_record
                       round_nearest_even Zdigits2].
    rewrite digits2_shift. fold d. rewrite Hk, H0.
    cbn [shr shr_record_of_loc shr_m].
    destruct (Zneg k <=? emax - prec)%Z; [ | exact I].
    cbn [isInteger]. cbn [Z.opp]. rewrite shifted_low_bits.
    apply orb_true_r.
Qed.

Lemma ofZ_integer z :
  match ofZ z with
  | S754_finite _ _ _ as x => isInteger x = true
  | _ => True
  end.
Proof.
  destruct z as [ | m | m]; [exact I | | ];
    apply binary_round_integer.
Qed.

End NumberFacts.

(* ===================================================================== *)
(** * Facts about the validator *)
(* ===================================================================== *)

Module ValidatorFacts.
Import Initialize Reading NumberFacts.

Lemma passes_inv supabase item product :
  passes supabase item product ->
  exists pid,
    parseCartItemId (item_id item) = Some pid
    /\ pidTruthy (Some pid) = true
    /\ products_single supabase (queryFor pid) = Resolved (Some product)
    /\ exceedsTolerance product item = false.
Proof.
  unfold passes, catalogProduct. intros [Hc He].
  destruct (parseCartItemId (item_id item)) as [pid | ]; [ | discriminate].
  destruct (pidTruthy (Some pid)) eqn:Ht; [ | discriminate].
  destruct (products_single supabase (queryFor pid)) as [[p | ] | e] eqn:Hq;
    try discriminate.
  injection Hc as ->. exists pid. auto.
Qed.

(** One turn of the loop on an item that passes. *)
Lemma loop_pass supabase item product rest acc tot pid :
  parseCartItemId (item_id item) = Some pid ->
  pidTruthy (Some pid) = true ->
  products_single supabase (queryFor pid) = Resolved (Some product) ->
  exceedsTolerance product item = false ->
  validateLoop supabase (item :: rest) acc tot =
  let next :=
    validateLoop supabase rest
      (acc ++ [{| item_id := product_id product;
                  item_name := product_name product;
                  item_category := item_category item;
                  item_price := parseFloat (product_price product) |}])
      (add tot (parseFloat (product_price product))) in
  (fst next, passTrace item pid product ++ snd next).
Proof.
  intros Hp Ht Hq He. cbn [validateLoop]. rewrite Hp, Ht. cbn [negb].
  unfold select, logger, emit, await, bind. rewrite Hq.
  rewrite parseFloat_invisible. unfold exceedsTolerance in He. rewrite He.
  destruct (validateLoop supabase rest _ _) as [r t]. reflexivity.
Qed.

(** One turn of the loop on an item that fails: the rest of the basket
    and the accumulators play no part. *)
Lemma loop_fail supabase item msg qs :
  fails supabase item msg qs ->
  exists t,
    queries t = qs
    /\ forall rest acc tot,
         validateLoop supabase (item :: rest) acc tot
         = (Resolved (Invalid msg), t).
Proof.
  intros [Hf | pid Hp Ht Hq | pid product Hp Ht Hq He].
  - exists [Log error (InvalidCartItemId item)]. split; [reflexivity | ].
    intros. cbn [validateLoop]. rewrite Hf. reflexivity.
  - exists [Log info (ParsedProductId (item_id item) pid);
            CatalogQuery (queryFor pid);
            Log error (ProductNotFoundInDatabase item pid)].
    split; [reflexivity | ].
    intros. cbn [validateLoop]. rewrite Hp, Ht. cbn [negb].
    unfold select, logger, emit, await, bind. rewrite Hq. reflexivity.
  - exists [Log info (ParsedProductId (item_id item) pid);
            CatalogQuery (queryFor pid);
            Log error
              (PriceManipulationDetected product
                 (parseFloat (product_price product))
                 (parseFloat (item_price item))
                 (Math_abs (sub (parseFloat (product_price product))
                                (parseFloat (item_price item))))
                 (mul (parseFloat (product_price product))
                      tolerancePercentage))].
    split; [reflexivity | ].
    intros. cbn [validateLoop]. rewrite Hp, Ht. cbn [negb].
    unfold select, logger, emit, await, bind. rewrite Hq.
    rewrite parseFloat_invisible. unfold exceedsTolerance in He.
    rewrite He. reflexivity.
Qed.

Lemma queries_app (t1 t2 : list Event) :
  queries (t1 ++ t2) = queries t1 ++ queries t2.
Proof.
  induction t1 as [ | [l ln | q | r | tb r res] t1 IH]; cbn;
    rewrite ?IH; reflexivity.
Qed.

Lemma queryOf_pass item pid :
  parseCartItemId (item_id item) = Some pid -> queryOf item = [queryFor pid].
Proof. unfold queryOf. intros ->. reflexivity. Qed.

(** A prefix of passing items: the loop reaches the rest of the basket
    with accumulators, and after events, that the prefix alone fixes. *)
Lemma loop_prefix supabase pre products :
  Forall2 (passes supabase) pre products ->
  forall acc tot,
  exists t acc' tot',
    queries t = flat_map queryOf pre
    /\ forall suffix,
         validateLoop supabase (pre ++ suffix) acc tot
         = (fst (validateLoop supabase suffix acc' tot'),
            t ++ snd (validateLoop supabase suffix acc' tot')).
Proof.
  induction 1 as [ | item product pre products Hpass _ IH]; intros acc tot.
  - exists [], acc, tot. split; [reflexivity | ].
    intros suffix. cbn. destruct (validateLoop _ _ _ _); reflexivity.
  - destruct (passes_inv Hpass) as (pid & Hp & Ht & Hq & He).
    destruct (IH (acc ++ [{| item_id := product_id product;
                             item_name := product_name product;
                             item_category := item_category item;
                             item_price :=
                               parseFloat (product_price product) |}])
                 (add tot (parseFloat (product_price product))))
      as (t & acc' & tot' & Hqs & Hrun).
    exists (passTrace item pid product ++ t), acc', tot'. split.
    + rewrite queries_app, Hqs. cbn [flat_map].
      rewrite (queryOf_pass _ Hp). reflexivity.
    + intros suffix. cbn [app].
      rewrite (@loop_pass supabase item product (pre ++ suffix) _ _ pid Hp Ht Hq He).
      cbn zeta.
      rewrite Hrun. cbn [fst snd]. rewrite app_assoc. reflexivity.
Qed.

(** When the loop returns, so does the validator, one log line later. *)
Lemma validateBasketPrices_resolved supabase items v t :
  validateLoop supabase items [] zero = (Resolved v, t) ->
  validateBasketPrices supabase items
  = (Resolved v,
     Log info
       (StartingPriceValidation (List.length items)
          (map (fun item => (item_id item, item_price item)) items)) :: t).
Proof.
  intros H. unfold validateBasketPrices, tryCatch, bind, logger, emit.
  rewrite H. reflexivity.
Qed.

(** The validator's answer is the loop's, and the fixed failure when
    the loop throws. *)
Lemma validateBasketPrices_outcome supabase items :
  outcome (validateBasketPrices supabase items)
  = match fst (validateLoop supabase items [] zero) with
    | Resolved v => Resolved v
    | Rejected _ => Resolved (Invalid ValidationFailure)
    end.
Proof.
  unfold validateBasketPrices, tryCatch, bind, logger, emit, outcome.
  destruct (validateLoop supabase items [] zero) as [[v | e] t];
    reflexivity.
Qed.

End ValidatorFacts.

(* ===================================================================== *)
(** * Facts about traces *)
(* ===================================================================== *)

Module TraceFacts.

Section Traces.
Variable E : Type.
Implicit Types x : E.

Lemma in_bind_left A B (m : Async E A) (k : A -> Async E B) x :
  In x (trace m) -> In x (trace (bind m k)).
Proof.
  destruct m as [[a | e] t]; cbn; intros H; [ | exact H].
  destruct (k a) as [r t']. cbn. apply in_or_app. left. exact H.
Qed.

Lemma in_bind_right A B (m : Async E A) (k : A -> Async E B) a x :
  outcome m = Resolved a -> In x (trace (k a)) -> In x (trace (bind m k)).
Proof.
  destruct m as [[a' | e] t]; cbn; intros Ha H; [ | discriminate].
  injection Ha as ->. destruct (k a) as [r t']. cbn in *.
  apply in_or_app. right. exact H.
Qed.

Lemma in_bind_inv A B (m : Async E A) (k : A -> Async E B) x :
  In x (trace (bind m k)) ->
  In x (trace m)
  \/ exists a, outcome m = Resolved a /\ In x (trace (k a)).
Proof.
  destruct m as [[a | e] t]; cbn; intros H; [ | left; exact H].
  destruct (k a) as [r t'] eqn:Hk. cbn in H.
  apply in_app_or in H as [H | H]; [left; exact H | right].
  exists a. rewrite Hk. auto.
Qed.

Lemma in_tryCatch_left A (m : Async E A) h x :
  In x (trace m) -> In x (trace (tryCatch m h)).
Proof.
  destruct m as [[a | e] t]; cbn; intros H; [exact H | ].
  destruct (h e) as [r t']. cbn. apply in_or_app. left. exact H.
Qed.

Lemma in_tryCatch_inv A (m : Async E A) h x :
  In x (trace (tryCatch m h)) ->
  In x (trace m)
  \/ exists e, outcome m = Rejected e /\ In x (trace (h e)).
Proof.
  destruct m as [[a | e] t]; cbn; intros H; [left; exact H | ].
  destruct (h e) as [r t'] eqn:Hh. cbn in H.
  apply in_app_or in H as [H | H]; [left; exact H | right].
  exists e. rewrite Hh. auto.
Qed.

Lemma in_tryFinally_left A (m : Async E A) f x :
  In x (trace m) -> In x (trace (tryFinally m f)).
Proof. unfold tryFinally, trace. cbn. intros H. apply in_or_app. auto. Qed.

End Traces.

End TraceFacts.

(* ===================================================================== *)
(** * The basket integrity validator *)
(* ===================================================================== *)

Module BasketIntegrity.
Import Initialize Reading Sample Observing NumberFacts ValidatorFacts
  TraceFacts.

Lemma honest_passes supabase item product :
  honest supabase item product ->
  passes supabase item product
  /\ parseFloat (product_price product) = product_price product.
Proof.
  intros (Hc & Hpos & Hw). split; [split; [exact Hc | ] | ].
  - apply le_not_gt. exact Hw.
  - exact (within_positive_nonzero _ _ Hpos Hw).
Qed.

(** A basket of honest items runs the loop to its end. *)
Lemma loop_honest supabase items products :
  Forall2 (honest supabase) items products ->
  forall acc tot,
  exists t,
    validateLoop supabase items acc tot
    = (Resolved
         (Valid (acc ++ validatedBasket items products)
            (fold_left add (map product_price products) tot)), t).
Proof.
  induction 1 as [ | item product items products Hh _ IH]; intros acc tot.
  - cbn. rewrite app_nil_r. eexists. reflexivity.
  - destruct (honest_passes Hh) as [Hpass Hpf].
    destruct (passes_inv Hpass) as (pid & Hp & Ht & Hq & He).
    rewrite (@loop_pass supabase item product items acc tot pid Hp Ht Hq He).
    cbn zeta. rewrite Hpf.
    destruct (IH (acc ++ [validated item product])
                 (add tot (product_price product))) as [t Hrun].
    unfold validated in Hrun. rewrite Hrun. cbn [fst snd].
    eexists. cbn [validatedBasket map fold_left].
    rewrite <- app_assoc. reflexivity.
Qed.

Lemma validatedBasket_length supabase items products :
  Forall2 (honest supabase) items products ->
  List.length (validatedBasket items products) = List.length items.
Proof. induction 1; cbn; congruence. Qed.

(** X23. On doubles.  A basket whose items all stand for catalog rows,
    with [abs(catalogPrice - clientPrice) <= catalogPrice * 0.01] for
    every item and [abs(sum - clientTotal) <= 0.01] for the left-to-right
    sum of the catalog prices, each comparison evaluated on doubles as
    the code evaluates it, is accepted: the validator answers [isValid]
    with one line per item, in order, made of the row's id, name and
    price and the client's category, with that sum as total; and the
    handler's total check lets the request through with that total. *)
Theorem honest_basket_is_accepted
    (IyzicoSettings : Type) (env : Env IyzicoSettings) (request : Request)
    (paymentRequest : PaymentRequest) (supabase : Supabase)
    (products : list Product) :
  json request = Resolved (Conforming paymentRequest) ->
  createSupabaseServerClient env = Resolved supabase ->
  Forall2 (honest supabase) (basketItems paymentRequest) products ->
  le (Math_abs (sub (sumOfPrices products) (amount paymentRequest)))
     (decimal 1 2) = true ->
  outcome (validateBasketPrices supabase (basketItems paymentRequest))
  = Resolved
      (Valid (validatedBasket (basketItems paymentRequest) products)
         (sumOfPrices products))
  /\ In (Log info
           (PriceValidationPassed (sumOfPrices products)
              (List.length (basketItems paymentRequest))))
        (trace (POST env request)).
Proof.
  intros Hjson Hsb Hitems Htotal.
  destruct (loop_honest Hitems [] zero) as [t Hloop].
  cbn [app] in Hloop. fold (sumOfPrices products) in Hloop.
  pose proof (validateBasketPrices_resolved _ _ Hloop) as Hrun.
  split; [rewrite Hrun; reflexivity | ].
  unfold POST. eapply in_bind_right; [reflexivity | ].
  apply in_tryFinally_left, in_tryCatch_left.
  unfold tryBody. rewrite Hjson.
  eapply in_bind_right; [reflexivity | ].
  eapply in_bind_right; [reflexivity | ].
  eapply in_bind_right; [reflexivity | ].
  rewrite Hsb.
  eapply in_bind_right; [reflexivity | ].
  eapply in_bind_right; [reflexivity | ].
  eapply in_bind_right; [rewrite Hrun; reflexivity | ].
  cbn [amount set_basketItems basketItems set_amount].
  rewrite (le_not_gt _ _ Htotal).
  apply in_bind_left. cbn.
  rewrite (validatedBasket_length Hitems). left. reflexivity.
Qed.

Lemma honest_basket_is_accepted_witness :
  outcome (validateBasketPrices shop
             [line "cart_1_a_1_1" (decimal 10050 2);
              line "2" (decimal 4999 2)])
  = Resolved
      (Valid [validated (line "cart_1_a_1_1" (decimal 10050 2)) lamp;
              validated (line "2" (decimal 4999 2)) mug]
         (ofZ 150))
  /\ In (Log info (PriceValidationPassed (ofZ 150) 2))
        (trace (POST deployment
                  (Sample.request
                     (Resolved
                        (Conforming
                           (checkout
                              [line "cart_1_a_1_1" (decimal 10050 2);
                               line "2" (decimal 4999 2)]
                              (decimal 15000 2))))))).
Proof.
  apply (@honest_basket_is_accepted unit deployment
           (Sample.request
              (Resolved
                 (Conforming
                    (checkout
                       [line "cart_1_a_1_1" (decimal 10050 2);
                        line "2" (decimal 4999 2)]
                       (decimal 15000 2)))))
           (checkout
              [line "cart_1_a_1_1" (decimal 10050 2);
               line "2" (decimal 4999 2)]
              (decimal 15000 2))
           shop [lamp; mug]).
  - reflexivity.
  - reflexivity.
  - repeat constructor; vm_compute; reflexivity.
  - vm_compute. reflexivity.
Defined.

(** The last item of a basket, whatever the accumulators. *)
Lemma last_item_mismatch supabase item acc tot :
  isPriceMismatch
    match fst (validateLoop supabase [item] acc tot) with
    | Resolved v => Resolved v
    | Rejected _ => Resolved (Invalid ValidationFailure)
    end
  = match catalogProduct supabase item with
    | Some product => exceedsTolerance product item
    | None => false
    end.
Proof.
  unfold catalogProduct. cbn [validateLoop].
  destruct (parseCartItemId (item_id item)) as [pid | ]; [ | reflexivity].
  destruct (pidTruthy (Some pid)); [ | reflexivity]. cbn [negb].
  unfold select, logger, emit, await, bind.
  destruct (products_single supabase (queryFor pid)) as [[product | ] | e];
    try reflexivity.
  rewrite parseFloat_invisible. unfold exceedsTolerance.
  destruct (gt _ _); reflexivity.
Qed.

(** X24. On doubles.  An item that the loop reaches is rejected with the
    price-manipulation message exactly when
    [abs(catalogPrice - clientPrice) > catalogPrice * 0.01] as the code
    evaluates it, difference, product and strict comparison all on
    doubles; an item without a catalog row never gets that message.  At
    a catalog price of 100 a client price of 101 sits on the threshold
    and passes, and 101.01 is rejected. *)
Theorem price_tolerance_is_strict :
  (forall supabase pre products item,
      Forall2 (passes supabase) pre products ->
      isPriceMismatch
        (outcome (validateBasketPrices supabase (pre ++ [item])))
      = match catalogProduct supabase item with
        | Some product => exceedsTolerance product item
        | None => false
        end)
  /\ Math_abs (sub (ofZ 100) (ofZ 101)) = mul (ofZ 100) tolerancePercentage
  /\ outcome (validateBasketPrices shop [line "1" (ofZ 101)])
     = Resolved (Valid [validated (line "1" (ofZ 101)) lamp] (ofZ 100))
  /\ outcome (validateBasketPrices shop [line "1" (decimal 10101 2)])
     = Resolved
         (Invalid (PriceManipulation (lit "Lamp") (ofZ 100)
                     (decimal 10101 2))).
Proof.
  split; [ | repeat split; vm_compute; reflexivity].
  intros supabase pre products item Hpre.
  rewrite validateBasketPrices_outcome.
  destruct (loop_prefix Hpre [] zero) as (t & acc & tot & _ & Hrun).
  rewrite (Hrun [item]). cbn [fst].
  apply last_item_mismatch.
Qed.

Lemma price_tolerance_is_strict_witness :
  isPriceMismatch
    (outcome (validateBasketPrices shop
                ([line "cart_1_a_1_1" (ofZ 100)]
                 ++ [line "cart_2_a_1_1" (ofZ 9999)])))
  = true.
Proof.
  exact (proj1 price_tolerance_is_strict shop
           [line "cart_1_a_1_1" (ofZ 100)] [lamp]
           (line "cart_2_a_1_1" (ofZ 9999))
           ltac:(repeat constructor; vm_compute; reflexivity)).
Defined.

(** C2. The comparison is strict, but it is made on doubles, and at the
    threshold that is not the comparison of the amounts.  At a catalog
    price of 1.00 a client price of 1.01 differs by exactly one percent,
    which is not more than the tolerance; the code finds
    [abs(1 - 1.01)], the double 0.010000000000000009, above [1 * 0.01],
    the double 0.01, and rejects the item with the price-manipulation
    message.  The two examples of the claim come out as it says: at a
    catalog price of 100 the client price 101 passes and 101.01 is
    rejected. *)
Theorem one_percent_difference_is_rejected :
  exactlyWithinOnePercent 100 101
  /\ roundsFrom (kurus 101) 101 100 = true
  /\ Math_abs (sub (kurus 100) (kurus 101))
     = S754_finite false 5764607523034240 (-59)
  /\ mul (kurus 100) tolerancePercentage
     = S754_finite false 5764607523034235 (-59)
  /\ outcome (validateBasketPrices (catalog [pin]) [line "7" (kurus 101)])
     = Resolved
         (Invalid (PriceManipulation (lit "Pin") (kurus 100) (kurus 101)))
  /\ outcome (validateBasketPrices shop [line "1" (kurus 10100)])
     = Resolved (Valid [validated (line "1" (kurus 10100)) lamp] (kurus 10000))
  /\ outcome (validateBasketPrices shop [line "1" (kurus 10101)])
     = Resolved
         (Invalid (PriceManipulation (lit "Lamp") (kurus 10000)
                     (kurus 10101))).
Proof.
  split; [unfold exactlyWithinOnePercent; lia | ].
  repeat split; vm_compute; reflexivity.
Qed.

(** C1. Not at the edge of the tolerances.  A basket of one lamp at its
    catalog price of 100.00 with a stated total of 100.01 meets every
    condition on the amounts themselves: the item's id parses, its row
    exists, its price is the catalog price, and the total is 0.01 away
    from the sum.  The validator accepts it, with the catalog line and
    the total 100; the handler's total check, made on doubles, refuses
    the request with a 400.  Likewise one pin of catalog price 1.00
    offered at 1.01, exactly one percent above, for a total of 1.00, is
    refused by the validator itself. *)
Theorem basket_at_the_tolerance_is_refused :
  (exactlyWithinOnePercent 10000 10000
   /\ exactlyWithinOneKurus 10000 10001
   /\ roundsFrom (kurus 10001) 10001 100 = true)
  /\ outcome (validateBasketPrices shop [line "1" (kurus 10000)])
     = Resolved (Valid [validated (line "1" (kurus 10000)) lamp] (kurus 10000))
  /\ outcome
       (POST deployment
          (Sample.request
             (Resolved
                (Conforming
                   (checkout [line "1" (kurus 10000)] (kurus 10001))))))
     = Resolved
         {| status := 400;
            body := TotalManipulation (kurus 10000) (kurus 10001) |}
  /\ (exactlyWithinOnePercent 100 101
      /\ exactlyWithinOneKurus 100 100
      /\ roundsFrom (kurus 101) 101 100 = true)
  /\ outcome
       (POST haberdashery
          (Sample.request
             (Resolved
                (Conforming (checkout [line "7" (kurus 101)] (kurus 100))))))
     = Resolved
         {| status := 400;
            body := SecurityCheckFailed
                      (PriceManipulation (lit "Pin") (kurus 100)
                         (kurus 101)) |}.
Proof.
  unfold exactlyWithinOnePercent, exactlyWithinOneKurus.
  repeat split; try lia; vm_compute; reflexivity.
Qed.

(** C4. Items are taken in input order and the first one that fails (an
    id that does not parse, a product that is not found, a price out of
    tolerance) ends the run: the answer is the failure of that item, it
    carries neither validated items nor a total, the catalog was queried
    for the items up to that one only, and nothing after the opening log
    line depends on the items behind it. *)
Theorem abort_on_first_failure supabase pre products bad post msg qs :
  Forall2 (passes supabase) pre products ->
  fails supabase bad msg qs ->
  (exists v,
      outcome (validateBasketPrices supabase (pre ++ bad :: post))
      = Resolved v
      /\ isValid v = false /\ message v = Some msg
      /\ validatedItems v = None /\ calculatedTotal v = None)
  /\ queries (trace (validateBasketPrices supabase (pre ++ bad :: post)))
     = flat_map queryOf pre ++ qs
  /\ outcome (validateBasketPrices supabase (pre ++ bad :: post))
     = outcome (validateBasketPrices supabase (pre ++ [bad]))
  /\ tl (trace (validateBasketPrices supabase (pre ++ bad :: post)))
     = tl (trace (validateBasketPrices supabase (pre ++ [bad]))).
Proof.
  intros Hpre Hbad.
  destruct (loop_prefix Hpre [] zero) as (t & acc & tot & Hqs & Hrun).
  destruct (loop_fail Hbad) as (tb & Hqb & Hfail).
  assert (Hany : forall rest,
             validateLoop supabase (pre ++ bad :: rest) [] zero
             = (Resolved (Invalid msg), t ++ tb)).
  { intros rest. rewrite (Hrun (bad :: rest)), Hfail. reflexivity. }
  rewrite (validateBasketPrices_resolved _ _ (Hany post)).
  rewrite (validateBasketPrices_resolved _ _ (Hany [])).
  cbn [outcome trace fst snd tl queries].
  repeat split.
  - exists (Invalid msg). repeat split.
  - rewrite queries_app, Hqs, Hqb. reflexivity.
Qed.

Lemma abort_on_first_failure_witness :
  queries
    (trace (validateBasketPrices shop
              ([line "cart_1_a_1_1" (ofZ 100)]
               ++ line "cart_2_a_1_1" (ofZ 9999)
                  :: [line "cart_3_a_1_1" (ofZ 1)])))
  = flat_map queryOf [line "cart_1_a_1_1" (ofZ 100)]
    ++ [queryFor (PidNumber (ofZ 2))].
Proof.
  refine (proj1 (proj2
    (@abort_on_first_failure shop
       [line "cart_1_a_1_1" (ofZ 100)] [lamp]
       (line "cart_2_a_1_1" (ofZ 9999))
       [line "cart_3_a_1_1" (ofZ 1)]
       (PriceManipulation (product_name mug)
          (parseFloat (product_price mug))
          (parseFloat (item_price (line "cart_2_a_1_1" (ofZ 9999)))))
       [queryFor (PidNumber (ofZ 2))] _ _))).
  - repeat constructor; vm_compute; reflexivity.
  - apply (@fails_price shop (line "cart_2_a_1_1" (ofZ 9999))
             (PidNumber (ofZ 2)) mug); vm_compute; reflexivity.
Defined.

(** C3. The total check compares [abs(validatedTotal - clientTotal)],
    computed on doubles, with the constant 0.01.  For a validated total
    of 100 and a client total of 100.01 the difference is the double
    0.010000000000005116, which is above the double 0.01: the handler
    answers 400 with the total-manipulation message, as it does for
    100.02. *)
Theorem one_kurus_difference_is_rejected :
  Math_abs (sub (ofZ 100) (decimal 10001 2))
  = S754_finite false 5764607523037184 (-59)
  /\ decimal 1 2 = S754_finite false 5764607523034235 (-59)
  /\ outcome
       (POST deployment
          (Sample.request
             (Resolved
                (Conforming
                   (checkout [line "1" (ofZ 100)] (decimal 10001 2))))))
     = Resolved
         {| status := 400;
            body := TotalManipulation (ofZ 100) (decimal 10001 2) |}
  /\ outcome
       (POST deployment
          (Sample.request
             (Resolved
                (Conforming
                   (checkout [line "1" (ofZ 100)] (decimal 10002 2))))))
     = Resolved
         {| status := 400;
            body := TotalManipulation (ofZ 100) (decimal 10002 2) |}.
Proof. repeat split; vm_compute; reflexivity. Qed.

End BasketIntegrity.

(* ===================================================================== *)
(** * Cart item identifiers *)
(* ===================================================================== *)

Module CartReference.
Import Initialize Reading Sample NumberFacts ValidatorFacts.

Lemma parseInt_positive s :
  gt (parseInt s) zero = true -> positiveIntegerOrInfinity (parseInt s) = true.
Proof.
  unfold positiveIntegerOrInfinity. intros H. rewrite H. cbn [andb].
  revert H. unfold parseInt.
  destruct (match trimStart s with
            | [] => (false, trimStart s)
            | c :: r => if (c =? hyphen)%N then (true, r)
                        else if (c =? plus)%N then (false, r)
                        else (false, trimStart s)
            end) as [neg s2].
  destruct (leadingDigits s2) as [ | d ds]; [discriminate | ].
  destruct (mathInt (d :: ds) =? 0)%Z; [destruct neg; discriminate | ].
  pose proof (ofZ_integer (if neg then (- mathInt (d :: ds))%Z
                           else mathInt (d :: ds))) as Hi.
  destruct (ofZ _) as [ sg | sg | | sg m e]; try discriminate.
  - destruct sg; [discriminate | reflexivity].
  - intros _. rewrite Hi. reflexivity.
Qed.

Lemma startsWith_app (p s : jsstring) :
  startsWith s p = true -> exists rest, s = p ++ rest.
Proof.
  revert s. induction p as [ | y p IH]; intros s H.
  - exists s. reflexivity.
  - destruct s as [ | x s]; [discriminate | ]. cbn in H.
    apply andb_true_iff in H as [Hx Hs]. apply N.eqb_eq in Hx. subst y.
    destruct (IH s Hs) as [rest ->]. exists rest. reflexivity.
Qed.

Lemma split_nonempty sep s : exists seg rest, split sep s = seg :: rest.
Proof.
  induction s as [ | c s (seg & rest & IH)]; cbn.
  - eauto.
  - destruct (c =? sep)%N; [eauto | ]. rewrite IH. eauto.
Qed.

Lemma cart_prefix s :
  startsWith s (lit "cart_") = true ->
  exists segment,
    nth_error (split underscore s) 1 = Some segment
    /\ parseCartItemId s = Some (ofSegment segment).
Proof.
  intros H. unfold parseCartItemId. rewrite H.
  destruct (startsWith_app _ _ H) as [rest ->].
  destruct (split_nonempty underscore rest) as (seg & more & Hs).
  assert (Hsplit : split underscore (lit "cart_" ++ rest)
                   = lit "cart" :: seg :: more).
  { cbn. rewrite Hs. reflexivity. }
  rewrite Hsplit. cbn [List.length Nat.leb nth_error].
  exists seg. split; [reflexivity | ].
  unfold ofSegment. destruct (negb _ && _); reflexivity.
Qed.

Lemma ofSegment_truthy segment :
  pidTruthy (Some (ofSegment segment)) = JsString.truthy segment.
Proof.
  unfold ofSegment.
  destruct (negb (isNaN (parseInt segment)) && gt (parseInt segment) zero)
    eqn:E; [ | reflexivity].
  apply andb_true_iff in E as [_ Hpos].
  destruct segment as [ | c s]; [discriminate | ].
  cbn [pidTruthy JsString.truthy].
  destruct (parseInt (c :: s)) as [sg | sg | | sg m e]; try discriminate;
    reflexivity.
Qed.

(** C5. The four identifiers of the specification: the composite id
    with a numeric product part gives legacy id 42, the bare ["77"]
    gives 77 and ["not-an-id"] does not parse; the composite id whose
    product part is a UUID starting with the digit 3 gives the legacy
    id 3, since [parseInt] stops at the first code unit that is not a
    digit. *)
Theorem parseCartItemId_on_specified_ids :
  parseCartItemId (lit "cart_42_v_123_xyz") = Some (PidNumber (ofZ 42))
  /\ parseCartItemId (lit "cart_3fa85f64-5717-4562-b3fc-2c963f66afa6_v_1_1")
     = Some (PidNumber (ofZ 3))
  /\ parseCartItemId (lit "not-an-id") = None
  /\ parseCartItemId (lit "77") = Some (PidNumber (ofZ 77)).
Proof. repeat split; vm_compute; reflexivity. Qed.

(** C6. Identifiers without the [cart_] prefix: a string that is not
    the decimal representation of an integer is still read as a legacy
    id when it begins with digits, so a canonical UUID with a leading
    digit between 1 and 9 comes back as a number and the UUID test is
    never reached. *)
Theorem bare_uuid_is_read_as_legacy_id :
  startsWith uuid1 (lit "cart_") = false
  /\ uuidPattern_test uuid1 = true
  /\ parseCartItemId uuid1 = Some (PidNumber (ofZ 3))
  /\ parseCartItemId (lit "77abc") = Some (PidNumber (ofZ 77))
  /\ parseCartItemId (lit "afa85f64-5717-4562-b3fc-2c963f66afa6")
     = Some (PidString (lit "afa85f64-5717-4562-b3fc-2c963f66afa6")).
Proof. repeat split; vm_compute; reflexivity. Qed.

(** The last item of a basket is turned away for its id exactly when
    the parsed id is falsy. *)
Lemma last_item_invalid_id supabase item acc tot :
  isInvalidId
    match fst (validateLoop supabase [item] acc tot) with
    | Resolved v => Resolved v
    | Rejected _ => Resolved (Invalid ValidationFailure)
    end
  = negb (pidTruthy (parseCartItemId (item_id item))).
Proof.
  cbn [validateLoop].
  destruct (pidTruthy (parseCartItemId (item_id item))) eqn:Ht;
    cbn [negb]; [ | reflexivity].
  destruct (parseCartItemId (item_id item)) as [pid | ]; [ | discriminate].
  unfold select, logger, emit, await, bind.
  destruct (products_single supabase (queryFor pid)) as [[product | ] | e];
    try reflexivity.
  destruct (gt _ _); reflexivity.
Qed.

(** The run of 310 nines after [cart_] is read as a number too large
    for a double: the id comes back as [Infinity], which is a number
    and not the segment, and is no integer. *)
Lemma overlong_digit_run_gives_infinity :
  startsWith overlong (lit "cart_") = true
  /\ parseCartItemId overlong = Some (PidNumber Infinity)
  /\ isInteger Infinity = false.
Proof. repeat split; vm_compute; reflexivity. Qed.

(** C10, amended. An id that starts with [cart_] never parses to
    [null]: the second segment between underscores is read with
    [parseInt]; a positive reading is returned as a number, which is a
    positive integer or, past the range of doubles, [Infinity]; any
    other segment is returned as it stands, be it empty (as in
    ["cart_"] and ["cart__x"]) or no UUID at all.  The validator turns
    such an item away for its id exactly when the segment is empty,
    through the falsiness test on the returned value. *)
Theorem cart_prefixed_id_never_null :
  (forall s,
      startsWith s (lit "cart_") = true ->
      exists segment,
        nth_error (split underscore s) 1 = Some segment
        /\ parseCartItemId s = Some (ofSegment segment)
        /\ (forall n, ofSegment segment = PidNumber n ->
                      positiveIntegerOrInfinity n = true)
        /\ (forall r, ofSegment segment = PidString r -> r = segment)
        /\ pidTruthy (parseCartItemId s) = JsString.truthy segment
        /\ (forall supabase pre products item,
               item_id item = s ->
               Forall2 (passes supabase) pre products ->
               isInvalidId
                 (outcome (validateBasketPrices supabase (pre ++ [item])))
               = negb (JsString.truthy segment)))
  /\ parseCartItemId (lit "cart_") = Some (PidString [])
  /\ parseCartItemId (lit "cart__x") = Some (PidString [])
  /\ uuidPattern_test (lit "zz") = false
  /\ parseCartItemId (lit "cart_zz_1") = Some (PidString (lit "zz")).
Proof.
  split; [ | repeat split; vm_compute; reflexivity].
  intros s Hs. destruct (cart_prefix s Hs) as (segment & Hnth & Hparse).
  exists segment. repeat split; try assumption.
  - intros n Hn. unfold ofSegment in Hn.
    destruct (negb (isNaN (parseInt segment)) && gt (parseInt segment) zero)
      eqn:E; [ | discriminate].
    injection Hn as <-. apply andb_true_iff in E as [_ Hpos].
    apply parseInt_positive. exact Hpos.
  - intros r Hr. unfold ofSegment in Hr.
    destruct (negb (isNaN (parseInt segment)) && gt (parseInt segment) zero);
      [discriminate | ].
    injection Hr as <-. reflexivity.
  - rewrite Hparse. apply ofSegment_truthy.
  - intros supabase pre products item Hid Hpre.
    rewrite validateBasketPrices_outcome.
    destruct (loop_prefix Hpre [] zero) as (t & acc & tot & _ & Hrun).
    rewrite (Hrun [item]). cbn [fst].
    rewrite last_item_invalid_id, Hid, Hparse, ofSegment_truthy.
    reflexivity.
Qed.

Lemma cart_prefixed_id_never_null_witness :
  exists segment,
    nth_error (split underscore (lit "cart_42_v_123_xyz")) 1 = Some segment
    /\ parseCartItemId (lit "cart_42_v_123_xyz") = Some (ofSegment segment).
Proof.
  destruct (proj1 cart_prefixed_id_never_null (lit "cart_42_v_123_xyz")
              ltac:(vm_compute; reflexivity))
    as (segment & Hnth & Hparse & _).
  exists segment. split; assumption.
Defined.

End CartReference.

(* ===================================================================== *)
(** * The two handlers *)
(* ===================================================================== *)

Module Handlers.
Import Initialize Reading Sample NumberFacts ValidatorFacts TraceFacts.

(** ** What reaches the gateway *)

Lemma gatewayCalls_app (t1 t2 : list Event) :
  gatewayCalls (t1 ++ t2) = gatewayCalls t1 ++ gatewayCalls t2.
Proof.
  induction t1 as [ | [l ln | q | r | tb r res] t1 IH]; cbn;
    rewrite ?IH; reflexivity.
Qed.

Lemma in_gatewayCalls (t : list Event) r :
  In (GatewayCall r) t <-> In r (gatewayCalls t).
Proof.
  induction t as [ | [l ln | q | r' | tb r' res] t IH]; cbn.
  - tauto.
  - rewrite <- IH. split; [intros [H | H]; [discriminate | exact H] | auto].
  - rewrite <- IH. split; [intros [H | H]; [discriminate | exact H] | auto].
  - rewrite <- IH. split; intros [H | H]; auto; left; congruence.
  - rewrite <- IH. split; [intros [H | H]; [discriminate | exact H] | auto].
Qed.

Lemma loop_no_gateway supabase items :
  forall acc tot, gatewayCalls (snd (validateLoop supabase items acc tot)) = [].
Proof.
  induction items as [ | item rest IH]; intros acc tot; [reflexivity | ].
  cbn [validateLoop].
  destruct (pidTruthy (parseCartItemId (item_id item))); cbn [negb];
    [ | reflexivity].
  destruct (parseCartItemId (item_id item)) as [pid | ]; [ | reflexivity].
  unfold select, logger, emit, await, bind.
  destruct (products_single supabase (queryFor pid)) as [[product | ] | e];
    try reflexivity.
  destruct (gt _ _); [reflexivity | ].
  specialize (IH (acc ++ [{| item_id := product_id product;
                            item_name := product_name product;
                            item_category := item_category item;
                            item_price := parseFloat (product_price product) |}])
                 (add tot (parseFloat (product_price product)))).
  destruct (validateLoop supabase rest _ _) as [r t]. cbn in *. exact IH.
Qed.

Lemma validator_no_gateway supabase items :
  gatewayCalls (trace (validateBasketPrices supabase items)) = [].
Proof.
  unfold validateBasketPrices, tryCatch, bind, logger, emit, trace.
  pose proof (loop_no_gateway supabase items [] zero) as H.
  destruct (validateLoop supabase items [] zero) as [[v | e] t];
    cbn in *; rewrite ?gatewayCalls_app, H; reflexivity.
Qed.

Lemma gatewayCalls_bind A B (m : IO A) (k : A -> IO B) :
  gatewayCalls (trace (bind m k))
  = gatewayCalls (trace m)
    ++ match outcome m with
       | Resolved a => gatewayCalls (trace (k a))
       | Rejected _ => []
       end.
Proof.
  destruct m as [[a | e] t]; cbn.
  - destruct (k a) as [r t']. cbn. apply gatewayCalls_app.
  - rewrite app_nil_r. reflexivity.
Qed.

Lemma POST_gatewayCalls (IyzicoSettings : Type) (env : Env IyzicoSettings)
    (request : Request) :
  gatewayCalls (trace (POST env request))
  = gatewayCalls (trace (tryBody env request)).
Proof.
  unfold POST. rewrite gatewayCalls_bind. cbn [logger emit trace outcome fst snd gatewayCalls app].
  unfold tryFinally, tryCatch, trace.
  destruct (tryBody env request) as [[a | [ | m]] t]; cbn;
    rewrite !gatewayCalls_app; cbn; rewrite ?app_nil_r; reflexivity.
Qed.


Ltac red_gw :=
  cbn [trace outcome fst snd await emit logger ret throw gatewayCalls app].
Ltac gw := rewrite gatewayCalls_bind; red_gw.
Ltac gws := repeat gw; try (intros []).

Lemma persist_quiet supabase r res :
  gatewayCalls (trace (persist supabase r res)) = []
  /\ exists u, outcome (persist supabase r res) = Resolved u.
Proof.
  unfold persist, tryCatch, bind, logger, emit, await, trace, outcome.
  destruct (insert supabase payment_transactions r res) as [[e1 | ] | x1];
    cbn; try (split; [reflexivity | eauto]);
  destruct (insert supabase orders r res) as [[e2 | ] | x2];
    cbn; split; try reflexivity; eauto.
Qed.

Lemma conclude_quiet supabase r res :
  gatewayCalls (trace (conclude supabase r res)) = [].
Proof.
  unfold conclude. do 2 gw. destruct (success res).
  - destruct (persist_quiet supabase r res) as [Hp [u Hu]].
    rewrite Hp, Hu. gws. reflexivity.
  - gws. reflexivity.
Qed.

(** C7. Whenever the handler calls the gateway, the request it hands
    over carries the validator's [calculatedTotal] as [amount] and the
    validator's [validatedItems] as [basketItems], both computed from the
    client's basket against the catalog: the client's own prices and
    total are not what the gateway sees. *)
Theorem gateway_receives_validated_data
    (IyzicoSettings : Type) (env : Env IyzicoSettings) (request : Request)
    (r : PaymentRequest) :
  In (GatewayCall r) (trace (POST env request)) ->
  exists paymentRequest supabase items total,
    json request = Resolved (Conforming paymentRequest)
    /\ createSupabaseServerClient env = Resolved supabase
    /\ outcome (validateBasketPrices supabase (basketItems paymentRequest))
       = Resolved (Valid items total)
    /\ amount r = total
    /\ basketItems r = items.
Proof.
  rewrite in_gatewayCalls, POST_gatewayCalls. unfold tryBody. gw.
  destruct (json request) as [[ | errors | pr] | e] eqn:Hjson; red_gw;
    [intros [] | gws | | intros []].
  do 3 gw.
  destruct (createSupabaseServerClient env) as [sb | e] eqn:Hsb; red_gw;
    [ | intros []].
  do 2 gw. rewrite validator_no_gateway. cbn [app].
  destruct (outcome (validateBasketPrices sb (basketItems pr)))
    as [[items total | m] | e] eqn:Hrun; red_gw; [ | gws | intros []].
  destruct (gt _ _); [gws | ].
  do 2 gw.
  destruct (getIyzicoSettingsFromEnv env) as [[settings | ] | e]; red_gw;
    [ | gws | intros []].
  do 3 gw.
  destruct (createIyzicoService env settings) as [service | e]; red_gw;
    [ | intros []].
  do 4 gw.
  destruct (initiate3DSecurePayment service _) as [res | e];
    [rewrite conclude_quiet | ]; intros [<- | []];
    exists pr, sb, items, total; repeat split; exact Hrun.
Qed.

Lemma gateway_receives_validated_data_witness :
  exists paymentRequest supabase items total,
    json (Sample.request
            (Resolved (Conforming (checkout [line "1" (decimal 10050 2)]
                                     (ofZ 100)))))
    = Resolved (Conforming paymentRequest)
    /\ createSupabaseServerClient deployment = Resolved supabase
    /\ outcome (validateBasketPrices supabase (basketItems paymentRequest))
       = Resolved (Valid items total)
    /\ ofZ 100 = total
    /\ [validated (line "1" (decimal 10050 2)) lamp] = items.
Proof.
  apply (@gateway_receives_validated_data unit deployment
           (Sample.request
              (Resolved (Conforming (checkout [line "1" (decimal 10050 2)]
                                       (ofZ 100)))))
           (set_context
              (set_amount
                 (set_basketItems
                    (checkout [line "1" (decimal 10050 2)] (ofZ 100))
                    [validated (line "1" (decimal 10050 2)) lamp])
                 (ofZ 100))
              (lit "https://shop.example/api/payment/iyzico/callback")
              (lit "127.0.0.1") (lit "Unknown"))).
  vm_compute. repeat (first [left; reflexivity | right]).
Defined.

(** ** Exceptions at the boundary *)

(** The link generator throws "connect ECONNREFUSED 10.0.0.7:5432": the
    body of the 500 answer of the magic-login handler ends with that
    text. *)
Lemma magic_login_500_carries_exception_message :
  outcome (MagicLogin.POST brokenMailer
             (loginRequest (Resolved (MagicLogin.Conforming (lit "a@b.co")))))
  = Resolved
      {| MagicLogin.status := 500;
         MagicLogin.body :=
           MagicLogin.Failed
             (Some (MagicLogin.serverErrorPrefix ++ unreachable)) None |}.
Proof. vm_compute. reflexivity. Qed.

(** C8, amended. An exception object that escapes the body of the
    [try] of either handler is caught there and answered with HTTP 500.
    The payment handler answers with one fixed text, whatever was thrown;
    the magic-login handler answers with its prefix followed by the
    message of the exception, or by a fixed text when it has none. *)
Theorem escaping_exception_becomes_500 :
  (forall (IyzicoSettings : Type) (env : Env IyzicoSettings)
          (request : Request) (m : option jsstring),
      outcome (tryBody env request) = Rejected (ThrownObject m) ->
      outcome (POST env request)
      = Resolved {| status := 500; body := UnexpectedServerError |})
  /\ (forall (env : MagicLogin.Env) (request : MagicLogin.Request)
             (m : option jsstring),
         outcome (MagicLogin.tryBody env request) = Rejected (ThrownObject m) ->
         outcome (MagicLogin.POST env request)
         = Resolved
             {| MagicLogin.status := 500;
                MagicLogin.body :=
                  MagicLogin.Failed
                    (Some (MagicLogin.serverErrorPrefix
                           ++ orElse m MagicLogin.unknownErrorText))
                    None |}).
Proof.
  split.
  - intros S env request m H. unfold POST, tryFinally, tryCatch, outcome in *.
    unfold bind, logger, emit.
    destruct (tryBody env request) as [o t]. cbn in H. subst o. reflexivity.
  - intros env request m H. unfold MagicLogin.POST, tryCatch, outcome in *.
    destruct (MagicLogin.tryBody env request) as [o t]. cbn in H. subst o.
    reflexivity.
Qed.

(** What the amended statement leaves aside: a thrown [null] or
    [undefined] makes the [catch] of either handler throw in turn. *)
Remark thrown_nullish_escapes (v : Nullish) :
  outcome (POST deployment (Sample.request (Rejected (ThrownNullish v))))
  = Rejected (cannotRead v (lit "message"))
  /\ outcome (MagicLogin.POST brokenMailer
               (loginRequest (Rejected (ThrownNullish v))))
     = Rejected (cannotRead v (lit "message")).
Proof. split; reflexivity. Qed.

(** An exception inside the validator stays there: the answer is the
    400 of a failed security check. *)
Remark validator_exception_is_a_400 :
  outcome
    (POST {| createSupabaseServerClient :=
               Resolved
                 {| products_single := fun _ =>
                      Rejected (ThrownObject (Some unreachable));
                    insert := fun _ _ _ => Resolved None |};
             getIyzicoSettingsFromEnv := Resolved (Some tt);
             createIyzicoService := fun _ => Resolved gateway;
             Initialize.NEXT_PUBLIC_APP_URL := None |}
       (Sample.request
          (Resolved (Conforming (checkout [line "1" (ofZ 100)] (ofZ 100))))))
  = Resolved {| status := 400; body := SecurityCheckFailed ValidationFailure |}.
Proof. vm_compute. reflexivity. Qed.

Lemma escaping_exception_becomes_500_witness :
  outcome (POST deployment (Sample.request (Rejected (ThrownObject None))))
  = Resolved {| status := 500; body := UnexpectedServerError |}
  /\ outcome (MagicLogin.POST brokenMailer
               (loginRequest (Rejected (ThrownObject None))))
     = Resolved
         {| MagicLogin.status := 500;
            MagicLogin.body :=
              MagicLogin.Failed
                (Some (MagicLogin.serverErrorPrefix
                       ++ orElse None MagicLogin.unknownErrorText))
                None |}.
Proof.
  split.
  - apply (proj1 escaping_exception_becomes_500 unit deployment
             (Sample.request (Rejected (ThrownObject None))) None).
    reflexivity.
  - apply (proj2 escaping_exception_becomes_500 brokenMailer
             (loginRequest (Rejected (ThrownObject None))) None).
    reflexivity.
Defined.

(** ** The login link in the answer *)



Lemma outcome_bind E A B (m : Async E A) (k : A -> Async E B) :
  outcome (bind m k)
  = match outcome m with
    | Resolved a => outcome (k a)
    | Rejected e => Rejected e
    end.
Proof.
  destruct m as [[a | e] t]; cbn; [ | reflexivity].
  destruct (k a); reflexivity.
Qed.



End Handlers.

(* ===================================================================== *)
(** * The validator, further *)
(* ===================================================================== *)

Module ValidatorLaws.
Import Initialize Reading Sample Observing NumberFacts ValidatorFacts.

(** What a run of the loop that ends in a valid answer went through. *)
Lemma loop_valid_inv supabase items :
  forall acc tot v total tr,
    validateLoop supabase items acc tot = (Resolved (Valid v total), tr) ->
    exists products,
      Forall2 (passes supabase) items products
      /\ v = acc ++ acceptedBasket items products
      /\ total
         = runningTotal tot (map item_price (acceptedBasket items products))
      /\ queries tr = flat_map queryOf items.
Proof.
  induction items as [ | item rest IH]; intros acc tot v total tr.
  - cbn. intros H. injection H as <- <- <-. exists [].
    rewrite app_nil_r. repeat split. constructor.
  - cbn [validateLoop].
    destruct (pidTruthy (parseCartItemId (item_id item))) eqn:Ht;
      cbn [negb]; [ | discriminate].
    destruct (parseCartItemId (item_id item)) as [pid | ] eqn:Hp;
      [ | discriminate].
    unfold select, logger, emit, await, bind.
    destruct (products_single supabase (queryFor pid))
      as [[product | ] | e] eqn:Hq; try discriminate.
    rewrite parseFloat_invisible.
    destruct (gt _ _) eqn:He; [discriminate | ].
    destruct (validateLoop supabase rest _ _) as [r t] eqn:Hrest.
    intros H. injection H as -> <-.
    destruct (IH _ _ _ _ _ Hrest) as (products & Hall & Hv & Htot & Hqs).
    exists (product :: products). repeat split.
    + constructor; [ | exact Hall]. split; [ | exact He].
      unfold catalogProduct. rewrite Hp, Ht, Hq. reflexivity.
    + rewrite Hv, <- app_assoc. reflexivity.
    + exact Htot.
    + cbn [queries app flat_map]. rewrite (queryOf_pass _ Hp), Hqs.
      reflexivity.
Qed.

(** A basket of passing items runs the loop to its end. *)
Lemma loop_all_pass supabase items products :
  Forall2 (passes supabase) items products ->
  forall acc tot,
  exists tr,
    validateLoop supabase items acc tot
    = (Resolved
         (Valid (acc ++ acceptedBasket items products)
            (runningTotal tot
               (map item_price (acceptedBasket items products)))), tr).
Proof.
  induction 1 as [ | item product items products Hpass _ IH]; intros acc tot.
  - cbn. rewrite app_nil_r. eexists. reflexivity.
  - destruct (passes_inv Hpass) as (pid & Hp & Ht & Hq & He).
    rewrite (@loop_pass supabase item product items acc tot pid Hp Ht Hq He).
    cbn zeta.
    destruct (IH (acc ++ [accepted item product])
                 (add tot (parseFloat (product_price product)))) as [t Hrun].
    unfold accepted in Hrun at 1. rewrite Hrun. cbn [fst snd].
    eexists. cbn [acceptedBasket map]. rewrite <- app_assoc. reflexivity.
Qed.

(** X1. The validator answers valid exactly when every item of the
    basket passes (its id parses to a truthy product id, the catalog has
    the row, the client price is not out of tolerance); the validated
    basket is then made of the catalog rows, item by item. *)
Theorem valid_iff_every_item_passes supabase items v total :
  outcome (validateBasketPrices supabase items) = Resolved (Valid v total)
  <-> exists products,
        Forall2 (passes supabase) items products
        /\ v = acceptedBasket items products
        /\ total = runningTotal zero (map item_price v).
Proof.
  rewrite validateBasketPrices_outcome. split.
  - destruct (validateLoop supabase items [] zero) as [[w | e] tr] eqn:Hrun;
      cbn [fst]; [ | discriminate].
    intros H. injection H as ->.
    destruct (@loop_valid_inv _ _ _ _ _ _ _ Hrun) as (products & Hall & Hv & Htot & _).
    exists products. cbn [app] in Hv. subst v. auto.
  - intros (products & Hall & -> & ->).
    destruct (loop_all_pass Hall [] zero) as [tr Hrun].
    rewrite Hrun. reflexivity.
Qed.

Lemma valid_iff_every_item_passes_witness :
  outcome (validateBasketPrices shop
             [line "cart_1_a_1_1" (ofZ 100); line "2" (decimal 4999 2)])
  = Resolved
      (Valid
         (acceptedBasket
            [line "cart_1_a_1_1" (ofZ 100); line "2" (decimal 4999 2)]
            [lamp; mug])
         (ofZ 150)).
Proof.
  apply (proj2 (valid_iff_every_item_passes shop
                  [line "cart_1_a_1_1" (ofZ 100); line "2" (decimal 4999 2)]
                  (acceptedBasket
                     [line "cart_1_a_1_1" (ofZ 100);
                      line "2" (decimal 4999 2)]
                     [lamp; mug])
                  (ofZ 150))).
  exists [lamp; mug]. split; [ | split; [reflexivity | vm_compute; reflexivity]].
  repeat constructor; vm_compute; reflexivity.
Defined.

Lemma acceptedBasket_shape supabase items products :
  Forall2 (passes supabase) items products ->
  List.length (acceptedBasket items products) = List.length items
  /\ map item_category (acceptedBasket items products)
     = map item_category items.
Proof.
  induction 1 as [ | item product items products _ _ [IHl IHc]]; cbn.
  - auto.
  - rewrite IHl, IHc. auto.
Qed.

Lemma flat_map_queryOf_length supabase items products :
  Forall2 (passes supabase) items products ->
  List.length (flat_map queryOf items) = List.length items.
Proof.
  induction 1 as [ | item product items products Hp _ IH]; cbn; [auto | ].
  destruct (passes_inv Hp) as (pid & Hpid & _).
  rewrite (queryOf_pass _ Hpid). cbn. rewrite IH. reflexivity.
Qed.

(** X2. A valid answer keeps the basket's shape: one validated line per
    item, in order, each with the category the client sent; the total is
    the prices of the returned lines added left to right from zero; and
    the catalog was queried once per item. *)
Theorem valid_answer_invariants supabase items v total :
  outcome (validateBasketPrices supabase items) = Resolved (Valid v total) ->
  List.length v = List.length items
  /\ map item_category v = map item_category items
  /\ total = runningTotal zero (map item_price v)
  /\ List.length (queries (trace (validateBasketPrices supabase items)))
     = List.length items.
Proof.
  rewrite validateBasketPrices_outcome.
  destruct (validateLoop supabase items [] zero) as [[w | e] tr] eqn:Hrun;
    cbn [fst]; [ | discriminate].
  intros H. injection H as ->.
  destruct (@loop_valid_inv _ _ _ _ _ _ _ Hrun) as (products & Hall & Hv & Htot & Hqs).
  cbn [app] in Hv. subst v.
  destruct (acceptedBasket_shape Hall) as [Hl Hc].
  rewrite (validateBasketPrices_resolved _ _ Hrun).
  cbn [trace snd queries]. rewrite Hqs.
  rewrite (flat_map_queryOf_length Hall). auto.
Qed.

Lemma valid_answer_invariants_witness :
  List.length
    (acceptedBasket [line "cart_1_a_1_1" (ofZ 100)] [lamp])
  = List.length [line "cart_1_a_1_1" (ofZ 100)].
Proof.
  exact (proj1 (@valid_answer_invariants shop
                  [line "cart_1_a_1_1" (ofZ 100)]
                  (acceptedBasket [line "cart_1_a_1_1" (ofZ 100)] [lamp])
                  (ofZ 100) ltac:(vm_compute; reflexivity))).
Defined.

Lemma loop_queries_bound supabase items :
  forall acc tot,
    (List.length (queries (snd (validateLoop supabase items acc tot)))
     <= List.length items)%nat.
Proof.
  induction items as [ | item rest IH]; intros acc tot; [cbn; lia | ].
  cbn [validateLoop].
  destruct (pidTruthy (parseCartItemId (item_id item))); cbn [negb];
    [ | cbn; lia].
  destruct (parseCartItemId (item_id item)) as [pid | ]; [ | cbn; lia].
  unfold select, logger, emit, await, bind.
  destruct (products_single supabase (queryFor pid)) as [[product | ] | e];
    try (cbn; lia).
  destruct (gt _ _); [cbn; lia | ].
  specialize (IH (acc ++ [{| item_id := product_id product;
                            item_name := product_name product;
                            item_category := item_category item;
                            item_price :=
                              parseFloat (product_price product) |}])
                 (add tot (parseFloat (product_price product)))).
  destruct (validateLoop supabase rest _ _) as [r t].
  cbn in *. lia.
Qed.

(** X3. Whatever the answer, the validator asks the catalog at most once
    per basket item. *)
Theorem at_most_one_query_per_item supabase items :
  (List.length (queries (trace (validateBasketPrices supabase items)))
   <= List.length items)%nat.
Proof.
  unfold validateBasketPrices, tryCatch, bind, logger, emit, trace.
  pose proof (loop_queries_bound supabase items [] zero) as H.
  destruct (validateLoop supabase items [] zero) as [[w | e] tr];
    cbn in *; rewrite ?queries_app; cbn; rewrite ?app_nil_r; exact H.
Qed.

(** X4. When the catalog lookup of an item throws, the items before it
    having passed, the validator does not throw: it answers with its
    fixed validation failure, and the catalog was queried for the items
    up to that one only. *)
Theorem thrown_lookup_is_a_failed_validation
    supabase pre products bad post e :
  Forall2 (passes supabase) pre products ->
  lookupThrows supabase bad e ->
  outcome (validateBasketPrices supabase (pre ++ bad :: post))
  = Resolved (Invalid ValidationFailure)
  /\ queries (trace (validateBasketPrices supabase (pre ++ bad :: post)))
     = flat_map queryOf pre ++ queryOf bad.
Proof.
  intros Hpre (pid & Hp & Ht & Hq).
  destruct (loop_prefix Hpre [] zero) as (t & acc & tot & Hqs & Hrun).
  unfold validateBasketPrices, tryCatch, bind at 1, logger, emit.
  rewrite (Hrun (bad :: post)). cbn [validateLoop]. rewrite Hp, Ht.
  cbn [negb]. unfold select, logger, emit, await, bind. rewrite Hq.
  unfold ret. cbn [fst snd outcome trace app]. split; [reflexivity | ].
  cbn [queries]. rewrite !queries_app, Hqs. cbn [queries app].
  rewrite (queryOf_pass _ Hp), app_nil_r. reflexivity.
Qed.

Lemma thrown_lookup_is_a_failed_validation_witness :
  outcome (validateBasketPrices offline
             ([] ++ line "1" (ofZ 100) :: [line "2" (ofZ 50)]))
  = Resolved (Invalid ValidationFailure)
  /\ queries (trace (validateBasketPrices offline
                       ([] ++ line "1" (ofZ 100) :: [line "2" (ofZ 50)])))
     = flat_map queryOf [] ++ queryOf (line "1" (ofZ 100)).
Proof.
  apply (@thrown_lookup_is_a_failed_validation offline [] []
           (line "1" (ofZ 100)) [line "2" (ofZ 50)]
           (ThrownObject (Some unreachable))).
  - constructor.
  - exists (PidNumber (ofZ 1)). repeat split; vm_compute; reflexivity.
Defined.

Lemma acceptedBasket_app supabase a pa :
  Forall2 (passes supabase) a pa ->
  forall b pb,
    acceptedBasket (a ++ b) (pa ++ pb)
    = acceptedBasket a pa ++ acceptedBasket b pb.
Proof.
  induction 1 as [ | item product a pa _ _ IH]; intros b pb;
    [reflexivity | ].
  cbn. rewrite IH. reflexivity.
Qed.

(** X5. Validation composes over concatenation: when two baskets are
    each valid against the same catalog, so is the first followed by the
    second; the validated lines are those of the first followed by those
    of the second, and the total continues the first total with the
    prices of the second, added one by one. *)
Theorem validation_composes supabase a b ia ta ib tb :
  outcome (validateBasketPrices supabase a) = Resolved (Valid ia ta) ->
  outcome (validateBasketPrices supabase b) = Resolved (Valid ib tb) ->
  outcome (validateBasketPrices supabase (a ++ b))
  = Resolved (Valid (ia ++ ib) (runningTotal ta (map item_price ib))).
Proof.
  rewrite !validateBasketPrices_outcome.
  destruct (validateLoop supabase a [] zero) as [[wa | ea] tra] eqn:Ha;
    cbn [fst]; [ | discriminate].
  destruct (validateLoop supabase b [] zero) as [[wb | eb] trb] eqn:Hb;
    cbn [fst]; [ | discriminate].
  intros H1 H2. injection H1 as ->. injection H2 as ->.
  destruct (@loop_valid_inv _ _ _ _ _ _ _ Ha) as (pa & Hpa & Hia & Hta & _).
  destruct (@loop_valid_inv _ _ _ _ _ _ _ Hb) as (pb & Hpb & Hib & Htb & _).
  cbn [app] in Hia, Hib. subst ia ib.
  destruct (loop_all_pass (Forall2_app Hpa Hpb) [] zero) as [tr Hrun].
  rewrite Hrun. cbn [fst app].
  rewrite (acceptedBasket_app Hpa). unfold runningTotal in *.
  rewrite map_app, fold_left_app, <- Hta. reflexivity.
Qed.

Lemma validation_composes_witness :
  outcome (validateBasketPrices shop
             ([line "1" (ofZ 100)] ++ [line "2" (ofZ 50)]))
  = Resolved
      (Valid (acceptedBasket [line "1" (ofZ 100)] [lamp]
              ++ acceptedBasket [line "2" (ofZ 50)] [mug])
         (runningTotal (ofZ 100)
            (map item_price (acceptedBasket [line "2" (ofZ 50)] [mug])))).
Proof.
  apply (@validation_composes shop
           [line "1" (ofZ 100)] [line "2" (ofZ 50)]
           (acceptedBasket [line "1" (ofZ 100)] [lamp]) (ofZ 100)
           (acceptedBasket [line "2" (ofZ 50)] [mug]) (ofZ 50));
    vm_compute; reflexivity.
Defined.

End ValidatorLaws.

(* ===================================================================== *)
(** * Cart item identifiers, further *)
(* ===================================================================== *)

Module CartIdLaws.
Import Initialize Reading Sample Observing NumberFacts ValidatorFacts
       CartReference.

Lemma startsWith_app_self (p x : jsstring) : startsWith (p ++ x) p = true.
Proof.
  induction p as [ | c p IH]; [destruct x; reflexivity | ].
  cbn. rewrite N.eqb_refl, IH. reflexivity.
Qed.

Lemma direct_parse s :
  startsWith s (lit "cart_") = false ->
  parseCartItemId s
  = if negb (isNaN (parseInt s)) && gt (parseInt s) zero
    then Some (PidNumber (parseInt s))
    else if uuidPattern_test s then Some (PidString s) else None.
Proof. intros H. unfold parseCartItemId. rewrite H. reflexivity. Qed.

Lemma positive_is_truthy n : gt n zero = true -> JsNumber.truthy n = true.
Proof. destruct n as [s | s | | s m e]; cbn; congruence. Qed.

Lemma positive_not_nan n : gt n zero = true -> isNaN n = false.
Proof. destruct n; cbn; congruence. Qed.

(** X6. What [parseCartItemId] can return.  A number is always positive,
    and a whole number unless it is [Infinity].  A string is the second
    segment of a [cart_] id, or the whole id when it has no such prefix
    and matches the UUID pattern.  [null] is returned only for an id
    without the prefix that neither begins with a positive number nor
    matches the pattern.  Hence the validator's falsiness test fires
    exactly on [null] and on the empty string. *)
Theorem parseCartItemId_range s :
  match parseCartItemId s with
  | Some (PidNumber n) => positiveIntegerOrInfinity n = true
  | Some (PidString r) =>
      if startsWith s (lit "cart_")
      then nth_error (split underscore s) 1 = Some r
      else r = s /\ uuidPattern_test s = true
  | None =>
      startsWith s (lit "cart_") = false
      /\ gt (parseInt s) zero = false
      /\ uuidPattern_test s = false
  end
  /\ (pidTruthy (parseCartItemId s) = false
      <-> parseCartItemId s = None \/ parseCartItemId s = Some (PidString [])).
Proof.
  assert (Hrange :
    match parseCartItemId s with
    | Some (PidNumber n) => positiveIntegerOrInfinity n = true
    | Some (PidString r) =>
        if startsWith s (lit "cart_")
        then nth_error (split underscore s) 1 = Some r
        else r = s /\ uuidPattern_test s = true
    | None =>
        startsWith s (lit "cart_") = false
        /\ gt (parseInt s) zero = false
        /\ uuidPattern_test s = false
    end).
  { destruct (startsWith s (lit "cart_")) eqn:Hs.
    - destruct (cart_prefix s Hs) as (segment & Hnth & ->).
      unfold ofSegment.
      destruct (negb (isNaN (parseInt segment))
                && gt (parseInt segment) zero) eqn:E.
      + apply andb_true_iff in E as [_ Hpos].
        apply parseInt_positive, Hpos.
      + exact Hnth.
    - rewrite (direct_parse s Hs).
      destruct (negb (isNaN (parseInt s)) && gt (parseInt s) zero) eqn:E.
      + apply andb_true_iff in E as [_ Hpos].
        apply parseInt_positive, Hpos.
      + destruct (uuidPattern_test s) eqn:Hu; [auto | ].
        repeat split.
        destruct (gt (parseInt s) zero) eqn:Hg; [ | reflexivity].
        rewrite (positive_not_nan _ Hg) in E. discriminate. }
  split; [exact Hrange | ].
  destruct (parseCartItemId s) as [[n | r] | ].
  - unfold positiveIntegerOrInfinity in Hrange.
    apply andb_true_iff in Hrange as [Hpos _].
    cbn [pidTruthy]. rewrite (positive_is_truthy _ Hpos).
    split; [discriminate | intros [H | H]; discriminate].
  - cbn [pidTruthy]. destruct r as [ | c r]; cbn.
    + split; auto.
    + split; [discriminate | intros [H | H]; discriminate].
  - cbn. split; auto.
Qed.


(** ** Canonical UUIDs *)

Lemma hexRun_inv n : forall s r,
  hexRun n s = Some r ->
  exists h, s = h ++ r /\ List.length h = n /\ forallb isHex h = true.
Proof.
  induction n as [ | n IH]; intros s r H.
  - cbn in H. injection H as ->. exists []. auto.
  - cbn in H. destruct s as [ | c s]; [discriminate | ].
    destruct (isHex c) eqn:Hc; [ | discriminate].
    destruct (IH s r H) as (h & -> & Hl & Hh).
    exists (c :: h). cbn. rewrite Hc, Hl, Hh. auto.
Qed.

Lemma dash_inv s r : dash s = Some r -> s = hyphen :: r.
Proof.
  destruct s as [ | c s]; cbn; [discriminate | ].
  destruct (N.eqb c hyphen) eqn:E; [ | discriminate].
  apply N.eqb_eq in E. intros H. injection H as ->. congruence.
Qed.

(** A matching id: five groups of hex digits, joined by hyphens. *)
Lemma uuid_groups s :
  uuidPattern_test s = true ->
  exists h1 h2 h3 h4 h5,
    s = h1 ++ hyphen :: h2 ++ hyphen :: h3 ++ hyphen :: h4 ++ hyphen :: h5
    /\ (List.length h1 = 8 /\ List.length h2 = 4 /\ List.length h3 = 4
        /\ List.length h4 = 4 /\ List.length h5 = 12)%nat
    /\ forallb isHex (h1 ++ h2 ++ h3 ++ h4 ++ h5) = true.
Proof.
  unfold uuidPattern_test, andThen.
  destruct (hexRun 8 s) as [r1 | ] eqn:H1; [ | discriminate].
  destruct (dash r1) as [r2 | ] eqn:D1; [ | discriminate].
  destruct (hexRun 4 r2) as [r3 | ] eqn:H2; [ | discriminate].
  destruct (dash r3) as [r4 | ] eqn:D2; [ | discriminate].
  destruct (hexRun 4 r4) as [r5 | ] eqn:H3; [ | discriminate].
  destruct (dash r5) as [r6 | ] eqn:D3; [ | discriminate].
  destruct (hexRun 4 r6) as [r7 | ] eqn:H4; [ | discriminate].
  destruct (dash r7) as [r8 | ] eqn:D4; [ | discriminate].
  destruct (hexRun 12 r8) as [[ | c r9] | ] eqn:H5; try discriminate.
  intros _.
  destruct (hexRun_inv _ _ H1) as (h1 & -> & L1 & F1).
  destruct (hexRun_inv _ _ H2) as (h2 & -> & L2 & F2).
  destruct (hexRun_inv _ _ H3) as (h3 & -> & L3 & F3).
  destruct (hexRun_inv _ _ H4) as (h4 & -> & L4 & F4).
  destruct (hexRun_inv _ _ H5) as (h5 & -> & L5 & F5).
  rewrite (dash_inv _ D1), (dash_inv _ D2), (dash_inv _ D3), (dash_inv _ D4).
  exists h1, h2, h3, h4, h5. rewrite app_nil_r.
  repeat split; try assumption.
  rewrite !forallb_app, F1, F2, F3, F4, F5. reflexivity.
Qed.

Lemma isHex_isUuidUnit h :
  forallb isHex h = true -> forallb isUuidUnit h = true.
Proof.
  induction h as [ | c h IH]; cbn; [auto | ].
  intros H. apply andb_true_iff in H as [Hc Hh].
  unfold isUuidUnit at 1. rewrite Hc, (IH Hh). reflexivity.
Qed.

Lemma uuid_units s :
  uuidPattern_test s = true ->
  List.length s = 36%nat /\ forallb isUuidUnit s = true.
Proof.
  intros Hu.
  destruct (uuid_groups s Hu)
    as (h1 & h2 & h3 & h4 & h5 & -> & (L1 & L2 & L3 & L4 & L5) & F).
  rewrite !forallb_app in F.
  apply andb_true_iff in F as [F1 F].
  apply andb_true_iff in F as [F2 F].
  apply andb_true_iff in F as [F3 F].
  apply andb_true_iff in F as [F4 F5].
  split.
  - repeat (rewrite length_app; cbn [List.length]).
    rewrite L1, L2, L3, L4, L5. reflexivity.
  - repeat (rewrite forallb_app; cbn [forallb]).
    rewrite !isHex_isUuidUnit by assumption. reflexivity.
Qed.

(** X7. A string returned for an id without the [cart_] prefix is the
    id itself, has exactly 36 code units, and holds only hex digits and
    hyphens. *)
Theorem bare_string_id_is_canonical s r :
  startsWith s (lit "cart_") = false ->
  parseCartItemId s = Some (PidString r) ->
  r = s /\ List.length r = 36%nat /\ forallb isUuidUnit r = true.
Proof.
  intros Hs Hp. rewrite (direct_parse s Hs) in Hp.
  destruct (negb (isNaN (parseInt s)) && gt (parseInt s) zero);
    [discriminate | ].
  destruct (uuidPattern_test s) eqn:Hu; [ | discriminate].
  injection Hp as <-. split; [reflexivity | ]. apply uuid_units, Hu.
Qed.

Lemma bare_string_id_is_canonical_witness :
  lit "afa85f64-5717-4562-b3fc-2c963f66afa6"
  = lit "afa85f64-5717-4562-b3fc-2c963f66afa6"
  /\ List.length (lit "afa85f64-5717-4562-b3fc-2c963f66afa6") = 36%nat
  /\ forallb isUuidUnit (lit "afa85f64-5717-4562-b3fc-2c963f66afa6") = true.
Proof.
  apply (@bare_string_id_is_canonical
           (lit "afa85f64-5717-4562-b3fc-2c963f66afa6")
           (lit "afa85f64-5717-4562-b3fc-2c963f66afa6"));
    vm_compute; reflexivity.
Defined.

(** ** Which bare UUIDs come back as UUIDs *)

Lemma isHex_plain c :
  isHex c = true ->
  isWhiteSpace c = false /\ N.eqb c hyphen = false /\ N.eqb c plus = false
  /\ N.eqb c underscore = false.
Proof.
  unfold isHex, isWhiteSpace, hyphen, plus, underscore. intros H.
  rewrite !orb_true_iff, !andb_true_iff, !N.leb_le in H.
  repeat split; apply not_true_is_false; intros Hw;
    rewrite ?orb_true_iff, ?andb_true_iff, ?N.leb_le, ?N.eqb_eq in Hw; lia.
Qed.

Lemma leadingDigits_stop h rest :
  (List.length (leadingDigits (h ++ hyphen :: rest)) <= List.length h)%nat.
Proof.
  induction h as [ | c h IH]; cbn [app leadingDigits List.length].
  - cbn. lia.
  - destruct (digit c); cbn [List.length]; lia.
Qed.

Lemma leadingDigits_range s :
  Forall (fun d => 0 <= d <= 9)%Z (leadingDigits s).
Proof.
  induction s as [ | c s IH]; cbn [leadingDigits]; [constructor | ].
  unfold digit. destruct ((48 <=? c) && (c <=? 57))%N eqn:E; [ | constructor].
  apply andb_true_iff in E as [E1 E2]. apply N.leb_le in E1, E2.
  constructor; [lia | exact IH].
Qed.

Lemma mathInt_bound ds :
  Forall (fun d => 0 <= d <= 9)%Z ds ->
  forall acc, (0 <= acc)%Z ->
  (0 <= fold_left (fun a d => 10 * a + d) ds acc
   < (acc + 1) * 10 ^ Z.of_nat (List.length ds))%Z.
Proof.
  induction 1 as [ | d ds Hd _ IH]; intros acc Hacc.
  - cbn. lia.
  - cbn [fold_left List.length].
    specialize (IH (10 * acc + d)%Z ltac:(lia)).
    rewrite Nat2Z.inj_succ, Z.pow_succ_r by lia.
    assert (0 < 10 ^ Z.of_nat (List.length ds))%Z
      by (apply Z.pow_pos_nonneg; lia).
    nia.
Qed.

Lemma digits2_size m : digits2_pos m = Pos.size m.
Proof. induction m; cbn; congruence. Qed.

Lemma small_digits (m : positive) :
  (Zpos m < 2 ^ 27)%Z -> (Zpos (digits2_pos m) < 53)%Z.
Proof.
  intros H. rewrite digits2_size.
  pose proof (Pos.size_le m) as Hle.
  apply Pos2Z.pos_le_pos in Hle. rewrite Pos2Z.inj_pow in Hle.
  destruct (Z_lt_le_dec (Zpos (Pos.size m)) 53) as [Hs | Hs]; [exact Hs | ].
  assert (2 ^ 53 <= 2 ^ Zpos (Pos.size m))%Z
    by (apply Z.pow_le_mono_r; lia).
  change (Zpos m~0) with (2 * Zpos m)%Z in Hle.
  assert (2 ^ 53 = 2 ^ 27 * 2 ^ 26)%Z by reflexivity.
  lia.
Qed.

(** Below 2^53 the number for an integer is the integer, with the
    mantissa shifted to 53 bits. *)
Lemma binary_round_small sg (m : positive) :
  (Zpos (digits2_pos m) < 53)%Z ->
  exists k, binary_round prec emax sg m 0
            = S754_finite sg (Pos.iter xO m k) (Zneg k).
Proof.
  intros Hd. unfold binary_round, shl_align.
  set (d := digits2_pos m) in *.
  assert (Hf : fexp prec emax (Zpos d + 0) = (Zpos d - 53)%Z).
  { unfold fexp, SpecFloat.emin, prec, emax. lia. }
  rewrite Hf, Z.sub_0_r.
  destruct (Zpos d - 53)%Z as [ | k | k] eqn:Hk; try lia.
  exists k. unfold binary_round_aux, shr_fexp. cbn [Zdigits2].
  rewrite digits2_shift. fold d.
  assert (Hdk : (Zpos (d + k) = 53)%Z) by lia.
  rewrite Hdk.
  assert (H0 : (fexp prec emax (53 + Zneg k) - Zneg k = 0)%Z).
  { unfold fexp, SpecFloat.emin, prec, emax. lia. }
  rewrite H0. cbn [shr shr_record_of_loc shr_m loc_of_shr_record
                     round_nearest_even Zdigits2].
  rewrite digits2_shift. fold d. rewrite Hdk, H0.
  cbn [shr shr_record_of_loc shr_m].
  destruct (Z.leb_spec (Zneg k) (emax - prec)) as [_ | Hbad];
    [reflexivity | ].
  unfold emax, prec in Hbad. lia.
Qed.

Lemma ofZ_small_positive z :
  (0 < z < 2 ^ 27)%Z -> gt (ofZ z) zero = true /\ isNaN (ofZ z) = false.
Proof.
  intros [Hpos Hlt]. destruct z as [ | m | m]; try lia.
  unfold ofZ, binary_normalize.
  destruct (@binary_round_small false m (@small_digits m Hlt)) as [k ->].
  split; reflexivity.
Qed.

(** X8. A bare id that matches the UUID pattern comes back as the UUID
    exactly when its leading decimal digits, if it has any, amount to
    zero; otherwise it comes back as the legacy id those digits spell. *)
Theorem bare_uuid_outcome s :
  uuidPattern_test s = true ->
  parseCartItemId s
  = if (mathInt (leadingDigits s) =? 0)%Z
    then Some (PidString s)
    else Some (PidNumber (ofZ (mathInt (leadingDigits s)))).
Proof.
  intros Hu.
  destruct (uuid_groups s Hu)
    as (h1 & h2 & h3 & h4 & h5 & Hs & (L1 & _) & F).
  set (rest := h2 ++ hyphen :: h3 ++ hyphen :: h4 ++ hyphen :: h5) in Hs.
  rewrite forallb_app in F. apply andb_true_iff in F as [F1 _].
  destruct h1 as [ | c1 [ | c2 [ | c3 [ | c4 [ | c5 h1]]]]]; try discriminate.
  cbn [forallb] in F1.
  apply andb_true_iff in F1 as [X1 F1].
  apply andb_true_iff in F1 as [X2 F1].
  apply andb_true_iff in F1 as [X3 F1].
  apply andb_true_iff in F1 as [X4 F1].
  apply andb_true_iff in F1 as [X5 F1].
  destruct (isHex_plain c1 X1) as (W1 & Y1 & P1 & _).
  destruct (isHex_plain c5 X5) as (_ & _ & _ & U5).
  assert (Hcart : startsWith s (lit "cart_") = false).
  { rewrite Hs. unfold underscore in U5. cbn. rewrite U5, !andb_false_r.
    reflexivity. }
  rewrite (direct_parse s Hcart), Hu.
  assert (Hlen : (List.length (leadingDigits s) <= 8)%nat).
  { rewrite Hs. etransitivity; [apply leadingDigits_stop | ]. lia. }
  pose proof (@mathInt_bound _ (leadingDigits_range s) 0%Z ltac:(lia)) as Hb.
  fold (mathInt (leadingDigits s)) in Hb.
  assert (Hpow : (10 ^ Z.of_nat (List.length (leadingDigits s)) <= 10 ^ 8)%Z)
    by (apply Z.pow_le_mono_r; lia).
  assert (Hint : parseInt s
                 = match leadingDigits s with
                   | [] => NaN
                   | _ => if (mathInt (leadingDigits s) =? 0)%Z
                          then S754_zero false
                          else ofZ (mathInt (leadingDigits s))
                   end).
  { clear - Hs W1 Y1 P1. cbn [app] in Hs. rewrite Hs.
    unfold parseInt. cbn [trimStart]. rewrite W1, Y1, P1.
    destruct (leadingDigits _); reflexivity. }
  rewrite Hint.
  destruct (leadingDigits s) as [ | d ds] eqn:Hds; [reflexivity | ].
  destruct (Z.eqb_spec (mathInt (d :: ds)) 0) as [Hz | Hz]; [reflexivity | ].
  destruct (@ofZ_small_positive (mathInt (d :: ds))) as [Hg Hn].
  { assert (10 ^ 8 < 2 ^ 27)%Z by reflexivity. lia. }
  rewrite Hg, Hn. reflexivity.
Qed.

Lemma bare_uuid_outcome_witness :
  parseCartItemId (lit "0b9c2f1e-8d3a-4c5b-9e7f-1a2b3c4d5e6f")
  = Some (PidString (lit "0b9c2f1e-8d3a-4c5b-9e7f-1a2b3c4d5e6f"))
  /\ parseCartItemId uuid1 = Some (PidNumber (ofZ 3)).
Proof.
  split.
  - exact (bare_uuid_outcome (lit "0b9c2f1e-8d3a-4c5b-9e7f-1a2b3c4d5e6f")
             ltac:(vm_compute; reflexivity)).
  - exact (bare_uuid_outcome uuid1 ltac:(vm_compute; reflexivity)).
Defined.

End CartIdLaws.

(* ===================================================================== *)
(** * Cart identifiers in the documented format *)
(* ===================================================================== *)

Module CartIdRoundTrip.
Import Initialize Reading Sample Observing NumberFacts ValidatorFacts
       CartReference CartIdLaws.

(** ** Every positive integer is a positive number *)

Lemma shr_1_half mrs :
  (0 <= shr_m mrs)%Z -> shr_m (shr_1 mrs) = (shr_m mrs / 2)%Z.
Proof.
  destruct mrs as [m r s]. cbn [shr_m]. intros Hm.
  destruct m as [ | [p | p | ] | p]; try lia; cbn [shr_1 shr_m].
  - reflexivity.
  - apply Z.div_unique with (r := 1%Z); lia.
  - apply Z.div_unique with (r := 0%Z); lia.
  - reflexivity.
Qed.

Lemma iter_shr_1 p : forall mrs,
  (0 <= shr_m mrs)%Z ->
  shr_m (iter_pos shr_1 p mrs) = (shr_m mrs / 2 ^ Zpos p)%Z.
Proof.
  induction p as [p IH | p IH | ]; intros mrs Hm; cbn [iter_pos].
  - assert (H1 : (0 <= shr_m (shr_1 mrs))%Z)
      by (rewrite shr_1_half by exact Hm; apply Z.div_pos; lia).
    assert (H2 : (0 <= shr_m (iter_pos shr_1 p (shr_1 mrs)))%Z)
      by (rewrite IH by exact H1; apply Z.div_pos; [exact H1 | lia]).
    assert (Hpow : (2 ^ Zpos p~1 = 2 * (2 ^ Zpos p * 2 ^ Zpos p))%Z).
    { rewrite <- Z.pow_add_r, <- Z.pow_succ_r by lia. f_equal. lia. }
    rewrite IH by exact H2. rewrite IH by exact H1.
    rewrite shr_1_half by exact Hm.
    rewrite !Z.div_div by lia. rewrite Hpow. reflexivity.
  - assert (H2 : (0 <= shr_m (iter_pos shr_1 p mrs))%Z)
      by (rewrite IH by exact Hm; apply Z.div_pos; [exact Hm | lia]).
    assert (Hpow : (2 ^ Zpos p~0 = 2 ^ Zpos p * 2 ^ Zpos p)%Z).
    { rewrite <- Z.pow_add_r by lia. f_equal. lia. }
    rewrite IH by exact H2. rewrite IH by exact Hm.
    rewrite !Z.div_div by lia. rewrite Hpow. reflexivity.
  - rewrite shr_1_half by exact Hm. reflexivity.
Qed.

Lemma digits_lower (m : positive) :
  (2 ^ (Zpos (digits2_pos m) - 1) <= Zpos m)%Z.
Proof.
  rewrite digits2_size.
  pose proof (Pos.size_le m) as Hle.
  apply Pos2Z.pos_le_pos in Hle. rewrite Pos2Z.inj_pow in Hle.
  change (Zpos m~0) with (2 * Zpos m)%Z in Hle.
  replace (Zpos (Pos.size m)) with (1 + (Zpos (Pos.size m) - 1))%Z in Hle
    by lia.
  rewrite Z.pow_add_r in Hle by lia. lia.
Qed.

(** Shifting a positive mantissa to its 53 bits leaves it positive. *)
Lemma shr_fexp_positive (m : positive) e l :
  (0 <= e)%Z ->
  (0 < shr_m (fst (shr_fexp prec emax (Zpos m) e l)))%Z
  /\ (0 <= snd (shr_fexp prec emax (Zpos m) e l))%Z.
Proof.
  intros He. unfold shr_fexp. cbn [Zdigits2].
  assert (Hf : (fexp prec emax (Zpos (digits2_pos m) + e) - e
                = Zpos (digits2_pos m) - 53)%Z).
  { unfold fexp, SpecFloat.emin, prec, emax. lia. }
  rewrite Hf.
  assert (Hm : shr_m (shr_record_of_loc (Zpos m) l) = Zpos m)
    by (destruct l as [ | [ | | ]]; reflexivity).
  destruct (Zpos (digits2_pos m) - 53)%Z as [ | p | p] eqn:Hp;
    cbn [shr fst snd]; rewrite ?Hm; try lia.
  rewrite iter_shr_1 by (rewrite Hm; lia). rewrite Hm. split; [ | lia].
  apply Z.div_str_pos. split; [apply Z.pow_pos_nonneg; lia | ].
  pose proof (digits_lower m) as Hlow.
  assert (2 ^ Zpos p <= 2 ^ (Zpos (digits2_pos m) - 1))%Z
    by (apply Z.pow_le_mono_r; lia).
  lia.
Qed.

Lemma binary_round_aux_positive (m : positive) e :
  (0 <= e)%Z ->
  exists x,
    binary_round_aux prec emax false (Zpos m) e loc_Exact = x
    /\ gt x zero = true /\ isNaN x = false.
Proof.
  intros He. unfold binary_round_aux.
  destruct (shr_fexp_positive m loc_Exact He) as [H1 H1e].
  destruct (shr_fexp prec emax (Zpos m) e loc_Exact) as [mrs' e'].
  cbn [fst snd] in H1, H1e.
  assert (Hr : (0 < round_nearest_even (shr_m mrs')
                      (loc_of_shr_record mrs'))%Z).
  { unfold round_nearest_even.
    destruct (loc_of_shr_record mrs') as [ | [ | | ]]; try lia.
    destruct (Z.even (shr_m mrs')); lia. }
  destruct (round_nearest_even (shr_m mrs') (loc_of_shr_record mrs'))
    as [ | m2 | m2]; try lia.
  destruct (shr_fexp_positive m2 loc_Exact H1e) as [H2 _].
  destruct (shr_fexp prec emax (Zpos m2) e' loc_Exact) as [mrs'' e''].
  cbn [fst] in H2.
  destruct (shr_m mrs'') as [ | m3 | m3]; try lia.
  destruct (e'' <=? emax - prec)%Z; eexists; split; try reflexivity;
    split; reflexivity.
Qed.

Lemma ofZ_positive (m : positive) :
  gt (ofZ (Zpos m)) zero = true /\ isNaN (ofZ (Zpos m)) = false.
Proof.
  unfold ofZ, binary_normalize.
  destruct (Z_lt_le_dec (Zpos (digits2_pos m)) 53) as [Hd | Hd].
  - destruct (@binary_round_small false m Hd) as [k ->].
    split; reflexivity.
  - unfold binary_round, shl_align.
    assert (Hf : fexp prec emax (Zpos (digits2_pos m) + 0)
                 = (Zpos (digits2_pos m) - 53)%Z).
    { unfold fexp, SpecFloat.emin, prec, emax. lia. }
    rewrite Hf, Z.sub_0_r.
    destruct (Zpos (digits2_pos m) - 53)%Z as [ | k | k] eqn:Hk; try lia;
      destruct (@binary_round_aux_positive m 0 ltac:(lia)) as (x & -> & H);
      exact H.
Qed.

(** ** Decimal numerals *)

Lemma leadingDigits_unitsOf d : leadingDigits (unitsOf d) = valuesOf d.
Proof. induction d; cbn; rewrite ?IHd; reflexivity. Qed.

Lemma mathInt_acc d : forall acc,
  fold_left (fun a x => 10 * a + x)%Z (valuesOf d) (Zpos acc)
  = Zpos (Pos.of_uint_acc d acc).
Proof.
  induction d; intros acc; cbn [valuesOf fold_left Pos.of_uint_acc];
    try reflexivity;
    rewrite <- IHd; f_equal; lia.
Qed.

Lemma mathInt_valuesOf d : mathInt (valuesOf d) = Z.of_N (Pos.of_uint d).
Proof.
  unfold mathInt.
  induction d; cbn [valuesOf fold_left Pos.of_uint]; try reflexivity;
    try (cbn [Z.mul Z.add]; rewrite mathInt_acc; reflexivity).
  exact IHd.
Qed.

Lemma unitsOf_plain d :
  underscoreFree (unitsOf d) = true
  /\ trimStart (unitsOf d) = unitsOf d
  /\ match unitsOf d with
     | c :: _ => N.eqb c hyphen = false /\ N.eqb c plus = false
     | [] => True
     end.
Proof.
  split; [ | split].
  - induction d; cbn; auto.
  - destruct d; reflexivity.
  - destruct d; cbn; auto.
Qed.

(** The decimal digits of a positive integer are read back as it. *)
Lemma parseInt_render (n : positive) : parseInt (render n) = ofZ (Zpos n).
Proof.
  unfold render, parseInt.
  destruct (unitsOf_plain (Pos.to_uint n)) as (_ & -> & Hsign).
  assert (Hread : leadingDigits (unitsOf (Pos.to_uint n))
                  = valuesOf (Pos.to_uint n))
    by apply leadingDigits_unitsOf.
  assert (Hval : mathInt (valuesOf (Pos.to_uint n)) = Zpos n).
  { rewrite mathInt_valuesOf, DecimalPos.Unsigned.of_to. reflexivity. }
  destruct (unitsOf (Pos.to_uint n)) as [ | c r] eqn:Hu.
  - cbn in Hread. rewrite <- Hread in Hval. discriminate.
  - destruct Hsign as [-> ->]. rewrite Hread.
    destruct (valuesOf (Pos.to_uint n)) as [ | v vs] eqn:Hv;
      [discriminate | ].
    rewrite Hval. reflexivity.
Qed.

(** ** The documented format *)

Lemma split_segment p rest :
  underscoreFree p = true ->
  split underscore (p ++ underscore :: rest) = p :: split underscore rest.
Proof.
  induction p as [ | c p IH]; cbn [app split underscoreFree forallb].
  - rewrite N.eqb_refl. reflexivity.
  - intros H. apply andb_true_iff in H as [Hc Hp].
    apply negb_true_iff in Hc. rewrite Hc, (IH Hp). reflexivity.
Qed.

(** Only the product part of a cart id counts. *)
Lemma cart_segment p v t r :
  underscoreFree p = true ->
  parseCartItemId (cartItemId p v t r) = Some (ofSegment p).
Proof.
  intros Hp. unfold cartItemId.
  assert (Hs : startsWith (lit "cart_" ++ p ++ underscore :: v
                           ++ underscore :: t ++ underscore :: r)
                 (lit "cart_") = true) by apply startsWith_app_self.
  destruct (cart_prefix _ Hs) as (segment & Hnth & ->).
  change (lit "cart_" ++ p ++ underscore :: v ++ underscore :: t
          ++ underscore :: r)
    with (lit "cart" ++ underscore :: p ++ underscore :: v
          ++ underscore :: t ++ underscore :: r) in Hnth.
  rewrite split_segment in Hnth by reflexivity.
  rewrite split_segment in Hnth by exact Hp.
  cbn in Hnth. injection Hnth as <-. reflexivity.
Qed.

(** X9. Round trip for legacy ids: a cart id built in the documented
    format around the decimal digits of a positive integer parses to the
    number for that integer, whatever the variant, timestamp and random
    parts are. *)
Theorem legacy_cart_id_round_trip (n : positive) (v t r : jsstring) :
  parseCartItemId (cartItemId (render n) v t r)
  = Some (PidNumber (ofZ (Zpos n))).
Proof.
  rewrite cart_segment
    by (apply (proj1 (unitsOf_plain (Pos.to_uint n)))).
  unfold ofSegment. rewrite parseInt_render.
  destruct (ofZ_positive n) as [-> ->]. reflexivity.
Qed.

Lemma uuidUnits_underscoreFree h :
  forallb isUuidUnit h = true -> underscoreFree h = true.
Proof.
  unfold underscoreFree.
  induction h as [ | c h IH]; cbn [forallb]; [auto | ].
  intros H. apply andb_true_iff in H as [Hc Hh].
  rewrite (IH Hh), andb_true_r.
  unfold isUuidUnit in Hc. apply orb_true_iff in Hc as [Hc | Hc].
  - destruct (isHex_plain c Hc) as (_ & _ & _ & ->). reflexivity.
  - apply N.eqb_eq in Hc. subst c. reflexivity.
Qed.

(** X10. A cart id built in the documented format around a canonical
    UUID parses to that UUID exactly when the UUID's leading decimal
    digits, if it has any, amount to zero; otherwise it parses to the
    legacy id those digits spell. *)
Theorem uuid_cart_id_outcome (u v t r : jsstring) :
  uuidPattern_test u = true ->
  parseCartItemId (cartItemId u v t r)
  = if (mathInt (leadingDigits u) =? 0)%Z
    then Some (PidString u)
    else Some (PidNumber (ofZ (mathInt (leadingDigits u)))).
Proof.
  intros Hu.
  pose proof (bare_uuid_outcome u Hu) as Hbare.
  assert (Hcart : startsWith u (lit "cart_") = false).
  { destruct (startsWith u (lit "cart_")) eqn:E; [ | reflexivity].
    destruct (cart_prefix u E) as (segment & _ & Hparse).
    rewrite Hparse in Hbare. unfold ofSegment in Hbare.
    destruct (uuid_groups u Hu)
      as (h1 & h2 & h3 & h4 & h5 & Hs & (L1 & _) & F).
    rewrite forallb_app in F. apply andb_true_iff in F as [F1 _].
    destruct h1 as [ | c1 [ | c2 [ | c3 [ | c4 [ | c5 h1]]]]];
      try discriminate.
    cbn [forallb] in F1. rewrite !andb_true_iff in F1.
    destruct F1 as (_ & _ & _ & _ & X5 & _).
    destruct (isHex_plain c5 X5) as (_ & _ & _ & U5).
    rewrite Hs in E. unfold underscore in U5. cbn in E.
    rewrite U5, !andb_false_r in E. discriminate. }
  rewrite (direct_parse u Hcart), Hu in Hbare.
  assert (Hfree : underscoreFree u = true).
  { apply uuidUnits_underscoreFree. apply (uuid_units u Hu). }
  rewrite (@cart_segment u v t r Hfree). unfold ofSegment.
  destruct (negb (isNaN (parseInt u)) && gt (parseInt u) zero) eqn:E.
  - rewrite <- Hbare. reflexivity.
  - destruct (mathInt (leadingDigits u) =? 0)%Z; [reflexivity | ].
    discriminate.
Qed.

Lemma uuid_cart_id_outcome_witness :
  parseCartItemId
    (cartItemId (lit "0b9c2f1e-8d3a-4c5b-9e7f-1a2b3c4d5e6f") (lit "v")
       (lit "1700000000000") (lit "k3x"))
  = Some (PidString (lit "0b9c2f1e-8d3a-4c5b-9e7f-1a2b3c4d5e6f"))
  /\ parseCartItemId
       (cartItemId uuid1 (lit "v") (lit "1700000000000") (lit "k3x"))
     = Some (PidNumber (ofZ 3)).
Proof.
  split.
  - exact (@uuid_cart_id_outcome
             (lit "0b9c2f1e-8d3a-4c5b-9e7f-1a2b3c4d5e6f") (lit "v")
             (lit "1700000000000") (lit "k3x")
             ltac:(vm_compute; reflexivity)).
  - exact (@uuid_cart_id_outcome uuid1 (lit "v") (lit "1700000000000")
             (lit "k3x") ltac:(vm_compute; reflexivity)).
Defined.

End CartIdRoundTrip.

(* ===================================================================== *)
(** * The payment handler, further *)
(* ===================================================================== *)

Module PaymentLaws.
Import Initialize Reading Sample Observing NumberFacts ValidatorFacts
       TraceFacts Handlers.

Lemma inserts_app (t1 t2 : list Event) :
  inserts (t1 ++ t2) = inserts t1 ++ inserts t2.
Proof.
  induction t1 as [ | [l ln | q | r | tb r res] t1 IH]; cbn;
    rewrite ?IH; reflexivity.
Qed.

Lemma in_inserts (t : list Event) tb r res :
  In (Insert tb r res) t <-> In (tb, r, res) (inserts t).
Proof.
  induction t as [ | [l ln | q | r' | tb' r' res'] t IH]; cbn.
  - tauto.
  - rewrite <- IH. split; [intros [H | H]; [discriminate | exact H] | auto].
  - rewrite <- IH. split; [intros [H | H]; [discriminate | exact H] | auto].
  - rewrite <- IH. split; [intros [H | H]; [discriminate | exact H] | auto].
  - rewrite <- IH. split; intros [H | H]; auto; left; congruence.
Qed.

Lemma loop_no_insert supabase items :
  forall acc tot, inserts (snd (validateLoop supabase items acc tot)) = [].
Proof.
  induction items as [ | item rest IH]; intros acc tot; [reflexivity | ].
  cbn [validateLoop].
  destruct (pidTruthy (parseCartItemId (item_id item))); cbn [negb];
    [ | reflexivity].
  destruct (parseCartItemId (item_id item)) as [pid | ]; [ | reflexivity].
  unfold select, logger, emit, await, bind.
  destruct (products_single supabase (queryFor pid)) as [[product | ] | e];
    try reflexivity.
  destruct (gt _ _); [reflexivity | ].
  specialize (IH (acc ++ [{| item_id := product_id product;
                            item_name := product_name product;
                            item_category := item_category item;
                            item_price :=
                              parseFloat (product_price product) |}])
                 (add tot (parseFloat (product_price product)))).
  destruct (validateLoop supabase rest _ _) as [r t]. cbn in *. exact IH.
Qed.

Lemma validator_no_insert supabase items :
  inserts (trace (validateBasketPrices supabase items)) = [].
Proof.
  unfold validateBasketPrices, tryCatch, bind, logger, emit, trace.
  pose proof (loop_no_insert supabase items [] zero) as H.
  destruct (validateLoop supabase items [] zero) as [[v | e] t];
    cbn in *; rewrite ?inserts_app, H; reflexivity.
Qed.

(** The records written after a gateway answer. *)
Lemma persist_inserts supabase r res :
  inserts (trace (persist supabase r res))
  = (payment_transactions, r, res)
    :: match insert supabase payment_transactions r res with
       | Resolved _ => [(orders, r, res)]
       | Rejected _ => []
       end.
Proof.
  unfold persist, tryCatch, bind, logger, emit, await, trace.
  destruct (insert supabase payment_transactions r res) as [[e1 | ] | x1];
    cbn; try reflexivity;
    destruct (insert supabase orders r res) as [[e2 | ] | x2]; reflexivity.
Qed.

Lemma conclude_outcome supabase r res :
  outcome (conclude supabase r res)
  = Resolved
      (if success res
       then NextResponse_json
              (ThreeDSecureStarted (paymentId res) (conversationId res)
                 (htmlContent res) (threeDSHtmlContent res)) 200
       else NextResponse_json
              (PaymentNotStarted
                 (orElse (errorMessage res) paymentNotStartedText)
                 (errorCode res)) 400).
Proof.
  unfold conclude. rewrite !outcome_bind. cbn [logger emit outcome fst].
  destruct (success res).
  - destruct (persist_quiet supabase r res) as [_ [u Hu]]. rewrite Hu.
    rewrite outcome_bind. reflexivity.
  - cbn [ret outcome fst]. rewrite outcome_bind. reflexivity.
Qed.

Lemma inserts_bind A B (m : IO A) (k : A -> IO B) :
  inserts (trace (bind m k))
  = inserts (trace m)
    ++ match outcome m with
       | Resolved a => inserts (trace (k a))
       | Rejected _ => []
       end.
Proof.
  destruct m as [[a | e] t]; cbn.
  - destruct (k a) as [r t']. cbn. apply inserts_app.
  - rewrite app_nil_r. reflexivity.
Qed.

Lemma conclude_inserts supabase r res :
  inserts (trace (conclude supabase r res))
  = if success res
    then (payment_transactions, r, res)
         :: match insert supabase payment_transactions r res with
            | Resolved _ => [(orders, r, res)]
            | Rejected _ => []
            end
    else [].
Proof.
  unfold conclude. destruct (success res); [ | reflexivity].
  pose proof (persist_inserts supabase r res) as Hi.
  destruct (persist_quiet supabase r res) as [_ [u Hu]].
  unfold trace, outcome in *.
  destruct (persist supabase r res) as [o tp]. cbn [fst snd] in Hu, Hi.
  subst o. cbn. rewrite inserts_app, Hi. cbn. rewrite app_nil_r.
  reflexivity.
Qed.

Ltac walk :=
  rewrite ?outcome_bind, ?gatewayCalls_bind, ?inserts_bind;
  cbn [trace outcome fst snd await emit logger ret throw gatewayCalls
       inserts app].

Ltac quiet :=
  left; repeat walk; repeat split; try reflexivity;
  try (intros ? H; try discriminate H; injection H as <-; discriminate).

(** Every run of the body of the [try]: either nothing reaches the
    gateway or the database and the answer is no 200, or the checks have
    passed, the gateway got the sanitized request once, and its answer
    decides the response and the writes. *)
Lemma tryBody_shape (IyzicoSettings : Type) (env : Env IyzicoSettings)
    (request : Request) :
  (gatewayCalls (trace (tryBody env request)) = []
   /\ inserts (trace (tryBody env request)) = []
   /\ forall resp, outcome (tryBody env request) = Resolved resp ->
                   status resp <> 200%Z)
  \/ exists pr sb items total settings service,
       json request = Resolved (Conforming pr)
       /\ createSupabaseServerClient env = Resolved sb
       /\ outcome (validateBasketPrices sb (basketItems pr))
          = Resolved (Valid items total)
       /\ gt (Math_abs (sub total (amount pr))) (decimal 1 2) = false
       /\ getIyzicoSettingsFromEnv env = Resolved (Some settings)
       /\ createIyzicoService env settings = Resolved service
       /\ gatewayCalls (trace (tryBody env request))
          = [sanitized env request pr items total]
       /\ outcome (tryBody env request)
          = match initiate3DSecurePayment service
                    (sanitized env request pr items total) with
            | Resolved res =>
                outcome (conclude sb (sanitized env request pr items total)
                           res)
            | Rejected e => Rejected e
            end
       /\ inserts (trace (tryBody env request))
          = match initiate3DSecurePayment service
                    (sanitized env request pr items total) with
            | Resolved res =>
                inserts (trace (conclude sb
                                  (sanitized env request pr items total) res))
            | Rejected e => []
            end.
Proof.
  unfold tryBody. walk.
  destruct (json request) as [[ | errors | pr] | e] eqn:Hjson;
    [quiet | quiet | | quiet].
  do 3 walk.
  destruct (createSupabaseServerClient env) as [sb | e] eqn:Hsb;
    [ | quiet].
  do 2 walk.
  rewrite validator_no_gateway, validator_no_insert. cbn [app].
  destruct (outcome (validateBasketPrices sb (basketItems pr)))
    as [[items total | m] | e] eqn:Hrun; [ | quiet | quiet].
  cbn [amount set_basketItems].
  destruct (gt _ _) eqn:Htot; [quiet | ].
  do 2 walk.
  destruct (getIyzicoSettingsFromEnv env) as [[settings | ] | e] eqn:Hset;
    [ | quiet | quiet].
  do 3 walk.
  destruct (createIyzicoService env settings) as [service | e] eqn:Hsvc;
    [ | quiet].
  do 4 walk.
  right. exists pr, sb, items, total, settings, service.
  fold (sanitized env request pr items total).
  repeat (split; [reflexivity || assumption | ]).
  destruct (initiate3DSecurePayment service _) as [res | e].
  - rewrite conclude_quiet. auto.
  - auto.
Qed.

Lemma POST_outcome (IyzicoSettings : Type) (env : Env IyzicoSettings)
    (request : Request) :
  outcome (POST env request)
  = match outcome (tryBody env request) with
    | Resolved resp => Resolved resp
    | Rejected (ThrownNullish v) => Rejected (cannotRead v (lit "message"))
    | Rejected (ThrownObject _) =>
        Resolved (NextResponse_json UnexpectedServerError 500)
    end.
Proof.
  unfold POST, tryFinally, tryCatch, bind, logger, emit, outcome.
  destruct (tryBody env request) as [[resp | [ | m]] t]; reflexivity.
Qed.

Lemma POST_inserts (IyzicoSettings : Type) (env : Env IyzicoSettings)
    (request : Request) :
  inserts (trace (POST env request)) = inserts (trace (tryBody env request)).
Proof.
  unfold POST. rewrite inserts_bind.
  cbn [logger emit trace outcome fst snd inserts app].
  unfold tryFinally, tryCatch, trace.
  destruct (tryBody env request) as [[a | [ | m]] t]; cbn;
    rewrite !inserts_app; cbn; rewrite ?app_nil_r; reflexivity.
Qed.

(** X11. Records are written only after the gateway has reported
    success, and both carry the request that was handed to the gateway,
    hence the validated total and items. *)
Theorem writes_follow_gateway_success
    (IyzicoSettings : Type) (env : Env IyzicoSettings) (request : Request)
    (tb : Table) (r : PaymentRequest) (res : PaymentResult) :
  In (Insert tb r res) (trace (POST env request)) ->
  In (GatewayCall r) (trace (POST env request))
  /\ success res = true
  /\ exists settings service,
       getIyzicoSettingsFromEnv env = Resolved (Some settings)
       /\ createIyzicoService env settings = Resolved service
       /\ initiate3DSecurePayment service r = Resolved res.
Proof.
  rewrite in_inserts, in_gatewayCalls, POST_inserts, POST_gatewayCalls.
  destruct (tryBody_shape env request)
    as [(_ & Hi & _) | (pr & sb & items & total & settings & service & _ & _
                        & _ & _ & Hset & Hsvc & Hg & _ & Hi)].
  - rewrite Hi. intros [].
  - rewrite Hi, Hg.
    destruct (initiate3DSecurePayment service _) as [res' | e] eqn:Hcall;
      [ | intros []].
    rewrite conclude_inserts.
    destruct (success res') eqn:Hok; [ | intros []].
    assert (Heq : forall x, In (tb, r, res) x ->
                   (forall y, In y x ->
                      snd (fst y) = sanitized env request pr items total
                      /\ snd y = res') ->
                   r = sanitized env request pr items total /\ res = res').
    { intros x Hin Hall. apply (Hall _ Hin). }
    intros Hin.
    destruct (Heq _ Hin) as [-> ->].
    { intros y [<- | Hy]; [auto | ].
      destruct (insert sb payment_transactions _ res');
        [destruct Hy as [<- | []]; auto | destruct Hy]. }
    split; [left; reflexivity | ]. split; [exact Hok | ].
    exists settings, service. auto.
Qed.

(** X12. The transaction record is written before the order record; an
    error answered by the first insert does not stop the second, an
    exception thrown by it does, and nothing else is ever written. *)
Theorem writes_in_order
    (IyzicoSettings : Type) (env : Env IyzicoSettings) (request : Request) :
  inserts (trace (POST env request)) = []
  \/ exists sb r res,
       createSupabaseServerClient env = Resolved sb
       /\ inserts (trace (POST env request))
          = (payment_transactions, r, res)
            :: match insert sb payment_transactions r res with
               | Resolved _ => [(orders, r, res)]
               | Rejected _ => []
               end.
Proof.
  rewrite POST_inserts.
  destruct (tryBody_shape env request)
    as [(_ & Hi & _) | (pr & sb & items & total & settings & service & _ & Hsb
                        & _ & _ & _ & _ & _ & _ & Hi)].
  - left. exact Hi.
  - rewrite Hi.
    destruct (initiate3DSecurePayment service _) as [res | e]; [ | auto].
    rewrite conclude_inserts. destruct (success res); [ | auto].
    right. exists sb, (sanitized env request pr items total), res. auto.
Qed.

(** X13. A 200 answer means that the gateway was called, exactly once,
    and reported success; the answer carries the identifiers and the
    HTML of the gateway's result. *)
Theorem ok_answer_needs_gateway_success
    (IyzicoSettings : Type) (env : Env IyzicoSettings) (request : Request)
    (resp : Response) :
  outcome (POST env request) = Resolved resp ->
  status resp = 200%Z ->
  exists settings service r res,
    getIyzicoSettingsFromEnv env = Resolved (Some settings)
    /\ createIyzicoService env settings = Resolved service
    /\ gatewayCalls (trace (POST env request)) = [r]
    /\ initiate3DSecurePayment service r = Resolved res
    /\ success res = true
    /\ body resp
       = ThreeDSecureStarted (paymentId res) (conversationId res)
           (htmlContent res) (threeDSHtmlContent res).
Proof.
  rewrite POST_outcome, POST_gatewayCalls.
  destruct (tryBody_shape env request)
    as [(_ & _ & Hno) | (pr & sb & items & total & settings & service & _ & _
                         & _ & _ & Hset & Hsvc & Hg & Ho & _)].
  - destruct (outcome (tryBody env request)) as [resp' | [ | m]];
      intros H Hst; try discriminate.
    + injection H as ->. destruct (Hno resp eq_refl Hst).
    + injection H as <-. discriminate.
  - rewrite Ho, Hg.
    destruct (initiate3DSecurePayment service _) as [res | [ | m]] eqn:Hcall;
      intros H Hst; try discriminate.
    + rewrite conclude_outcome in H. injection H as <-.
      destruct (success res) eqn:Hok; [ | discriminate].
      exists settings, service, (sanitized env request pr items total), res.
      auto 10.
    + injection H as <-. discriminate.
Qed.

(** X14. A checkout refused for its format, by the validator, by the
    total check or for missing gateway settings never reaches the
    gateway and writes nothing; and no request reaches the gateway more
    than once. *)
Theorem refusal_reaches_nothing
    (IyzicoSettings : Type) (env : Env IyzicoSettings) (request : Request) :
  (List.length (gatewayCalls (trace (POST env request))) <= 1)%nat
  /\ forall resp,
       outcome (POST env request) = Resolved resp ->
       isRefusal (body resp) = true ->
       gatewayCalls (trace (POST env request)) = []
       /\ inserts (trace (POST env request)) = [].
Proof.
  rewrite POST_outcome, POST_gatewayCalls, POST_inserts.
  destruct (tryBody_shape env request)
    as [(Hg & Hi & _) | (pr & sb & items & total & settings & service & _ & _
                         & _ & _ & _ & _ & Hg & Ho & _)].
  - rewrite Hg, Hi. cbn. split; [lia | auto].
  - rewrite Hg, Ho. cbn [List.length]. split; [lia | ].
    intros resp H Href. exfalso.
    destruct (initiate3DSecurePayment service _) as [res | [ | m]];
      try discriminate.
    + rewrite conclude_outcome in H. injection H as <-.
      destruct (success res); discriminate.
    + injection H as <-. discriminate.
Qed.

Lemma endsWith_app (a b : jsstring) : endsWith (a ++ b) b = true.
Proof.
  unfold endsWith. rewrite rev_app_distr.
  apply CartIdLaws.startsWith_app_self.
Qed.

Lemma orElse_truthy a b :
  JsString.truthy b = true -> JsString.truthy (orElse a b) = true.
Proof. destruct a as [[ | c s] | ]; cbn; auto. Qed.

(** X15. The request handed to the gateway is the client's checkout in
    everything but prices and context: order number, currency,
    installment, user, buyer, both addresses and the card are as the
    client sent them; the callback URL ends with the callback route, and
    the caller's address and user agent are present and not empty. *)
Theorem gateway_request_keeps_the_checkout
    (IyzicoSettings : Type) (env : Env IyzicoSettings) (request : Request)
    (r : PaymentRequest) :
  In (GatewayCall r) (trace (POST env request)) ->
  exists pr,
    json request = Resolved (Conforming pr)
    /\ (orderNumber r = orderNumber pr /\ currency r = currency pr
        /\ installment r = installment pr /\ userId r = userId pr
        /\ buyer r = buyer pr /\ billingAddress r = billingAddress pr
        /\ shippingAddress r = shippingAddress pr /\ card r = card pr)
    /\ exists cb ipa ua,
         callbackUrl r = Some cb /\ ipAddress r = Some ipa
         /\ userAgent r = Some ua
         /\ endsWith cb (lit "/api/payment/iyzico/callback") = true
         /\ JsString.truthy ipa = true /\ JsString.truthy ua = true.
Proof.
  rewrite in_gatewayCalls, POST_gatewayCalls.
  destruct (tryBody_shape env request)
    as [(Hg & _) | (pr & sb & items & total & settings & service & Hjson & _
                    & _ & _ & _ & _ & Hg & _)];
    rewrite Hg; [intros [] | intros [<- | []]].
  exists pr. split; [exact Hjson | ].
  split; [cbn; auto 10 | ].
  eexists _, _, _. cbn [sanitized set_context callbackUrl ipAddress userAgent].
  repeat split.
  - apply endsWith_app.
  - apply orElse_truthy. reflexivity.
  - apply orElse_truthy. reflexivity.
Qed.

(** Rounding never makes a NaN: shifting a mantissa that is not
    negative leaves it so. *)
Lemma shr_fexp_nonneg m e l :
  (0 <= m)%Z -> (0 <= shr_m (fst (shr_fexp prec emax m e l)))%Z.
Proof.
  intros Hm. unfold shr_fexp.
  assert (H0 : shr_m (shr_record_of_loc m l) = m)
    by (destruct l as [ | [ | | ]]; reflexivity).
  destruct (fexp prec emax (Zdigits2 m + e) - e)%Z as [ | p | p];
    cbn [shr fst]; rewrite ?H0; try exact Hm.
  rewrite CartIdRoundTrip.iter_shr_1 by (rewrite H0; exact Hm).
  rewrite H0. apply Z.div_pos; [exact Hm | apply Z.pow_pos_nonneg; lia].
Qed.

Lemma binary_round_aux_not_nan s m e l :
  (0 <= m)%Z -> isNaN (binary_round_aux prec emax s m e l) = false.
Proof.
  intros Hm. unfold binary_round_aux.
  pose proof (shr_fexp_nonneg e l Hm) as H1.
  destruct (shr_fexp prec emax m e l) as [mrs' e']. cbn [fst] in H1.
  assert (Hr : (0 <= round_nearest_even (shr_m mrs')
                       (loc_of_shr_record mrs'))%Z).
  { unfold round_nearest_even.
    destruct (loc_of_shr_record mrs') as [ | [ | | ]]; try lia.
    destruct (Z.even (shr_m mrs')); lia. }
  pose proof (shr_fexp_nonneg e' loc_Exact Hr) as H2.
  destruct (shr_fexp prec emax _ e' loc_Exact) as [mrs'' e''].
  cbn [fst] in H2.
  destruct (shr_m mrs'') as [ | m3 | m3]; try lia; [reflexivity | ].
  destruct (e'' <=? emax - prec)%Z; reflexivity.
Qed.

Lemma binary_normalize_not_nan m e s :
  isNaN (binary_normalize prec emax m e s) = false.
Proof.
  destruct m as [ | m | m]; cbn [binary_normalize]; [reflexivity | | ];
    unfold binary_round;
    destruct (shl_align m e _) as [mz ez];
    apply binary_round_aux_not_nan; lia.
Qed.

(** The difference of a finite number and a number is a number. *)
Lemma sub_not_nan (a b : number) :
  isFinite a = true -> isNaN b = false -> isNaN (sub a b) = false.
Proof.
  destruct a as [sa | sa | | sa ma ea]; try discriminate;
    destruct b as [sb | sb | | sb mb eb]; try discriminate;
    intros _ _; try destruct sa; try destruct sb; try reflexivity;
    unfold sub, SFsub; apply binary_normalize_not_nan.
Qed.

(** Between numbers, [a > b] is false only if [a <= b]. *)
Lemma not_gt_le (a b : number) :
  isNaN a = false -> isNaN b = false -> gt a b = false -> le a b = true.
Proof.
  unfold le, gt, SFleb, SFltb. rewrite (SFcompare_swap a b).
  destruct a as [sa | sa | | sa ma ea]; try discriminate;
    destruct b as [sb | sb | | sb mb eb]; try discriminate;
    intros _ _;
    destruct (SFcompare _ _) as [[ | | ] | ] eqn:Hc; cbn;
    try congruence;
    try destruct sa; try destruct sb; cbn in Hc; try discriminate Hc.
Qed.

(** X16. When the gateway is called with an amount that is a finite
    number, for a request whose stated amount is a number, the two are
    at most 0.01 apart as doubles are subtracted and compared.  Without
    that the check is void: a NaN on either side makes
    [totalDifference > 0.01] false, and the request goes through. *)
Theorem charged_amount_close_to_stated
    (IyzicoSettings : Type) (env : Env IyzicoSettings) (request : Request)
    (pr r : PaymentRequest) :
  json request = Resolved (Conforming pr) ->
  In (GatewayCall r) (trace (POST env request)) ->
  isFinite (amount r) = true ->
  isNaN (amount pr) = false ->
  le (Math_abs (sub (amount r) (amount pr))) (decimal 1 2) = true.
Proof.
  intros Hbody. rewrite in_gatewayCalls, POST_gatewayCalls.
  destruct (tryBody_shape env request)
    as [(Hg & _) | (pr' & sb & items & total & settings & service & Hjson & _
                    & _ & Htot & _ & _ & Hg & _)];
    rewrite Hg; [intros [] | intros [<- | []]].
  rewrite Hbody in Hjson. injection Hjson as <-.
  cbn [sanitized set_context set_amount amount]. intros Hfin Hnum.
  apply not_gt_le; [ | reflexivity | exact Htot].
  pose proof (sub_not_nan _ _ Hfin Hnum) as Hsub.
  destruct (sub total (amount pr)); [reflexivity | reflexivity | | reflexivity].
  discriminate Hsub.
Qed.

(** The void case: a catalog price that does not read as a number is a
    NaN, no client price is out of its tolerance, the total is a NaN
    that no stated amount differs from, and the gateway is asked to
    charge NaN. *)
Remark unpriced_row_reaches_the_gateway :
  outcome (validateBasketPrices (catalog [token]) [line "9" (kurus 1)])
  = Resolved (Valid [accepted (line "9" (kurus 1)) token] NaN)
  /\ gatewayCalls
       (trace (POST arcade
                 (Sample.request
                    (Resolved
                       (Conforming
                          (checkout [line "9" (kurus 1)] (kurus 10000)))))))
     = [sanitized arcade
          (Sample.request
             (Resolved
                (Conforming (checkout [line "9" (kurus 1)] (kurus 10000)))))
          (checkout [line "9" (kurus 1)] (kurus 10000))
          [accepted (line "9" (kurus 1)) token] NaN]
  /\ outcome
       (POST arcade
          (Sample.request
             (Resolved
                (Conforming
                   (checkout [line "9" (kurus 1)] (kurus 10000))))))
     = Resolved
         (NextResponse_json
            (ThreeDSecureStarted (paymentId started) (conversationId started)
               (htmlContent started) (threeDSHtmlContent started)) 200).
Proof. repeat split; vm_compute; reflexivity. Qed.

Lemma loop_withInsert supabase ins items :
  forall acc tot,
    validateLoop (withInsert supabase ins) items acc tot
    = validateLoop supabase items acc tot.
Proof.
  induction items as [ | item rest IH]; intros acc tot; [reflexivity | ].
  cbn [validateLoop].
  destruct (pidTruthy (parseCartItemId (item_id item))); cbn [negb];
    [ | reflexivity].
  destruct (parseCartItemId (item_id item)) as [pid | ]; [ | reflexivity].
  unfold select, logger, emit, await, bind.
  cbn [products_single withInsert].
  destruct (products_single supabase (queryFor pid)) as [[product | ] | e];
    try reflexivity.
  destruct (gt _ _); [reflexivity | ].
  rewrite IH. reflexivity.
Qed.

Lemma validator_withInsert supabase ins items :
  validateBasketPrices (withInsert supabase ins) items
  = validateBasketPrices supabase items.
Proof. unfold validateBasketPrices. rewrite loop_withInsert. reflexivity. Qed.

(** X17. What the inserts do, answer with an error or throw, changes
    neither the response nor what the gateway is asked: the outcome of
    the request is decided by the checks and the gateway alone. *)
Theorem persistence_never_changes_the_answer
    (IyzicoSettings : Type) (env : Env IyzicoSettings) (request : Request)
    (ins : Table -> PaymentRequest -> PaymentResult ->
           Awaited (option jsstring)) :
  outcome (POST (withPersistence env ins) request)
  = outcome (POST env request)
  /\ gatewayCalls (trace (POST (withPersistence env ins) request))
     = gatewayCalls (trace (POST env request)).
Proof.
  rewrite !POST_outcome, !POST_gatewayCalls.
  assert (H : outcome (tryBody (withPersistence env ins) request)
              = outcome (tryBody env request)
              /\ gatewayCalls (trace (tryBody (withPersistence env ins)
                                        request))
                 = gatewayCalls (trace (tryBody env request))).
  { unfold tryBody. walk.
    destruct (json request) as [[ | errors | pr] | e];
      [auto | repeat walk; auto | | auto].
    do 3 walk.
    cbn [withPersistence createSupabaseServerClient getIyzicoSettingsFromEnv
         createIyzicoService Initialize.NEXT_PUBLIC_APP_URL].
    destruct (createSupabaseServerClient env) as [sb | e]; [ | auto].
    do 2 walk. rewrite validator_withInsert.
    destruct (outcome (validateBasketPrices sb (basketItems pr)))
      as [[items total | m] | e]; [ | repeat walk; auto | auto].
    destruct (gt _ _); [repeat walk; auto | ].
    do 2 walk.
    destruct (getIyzicoSettingsFromEnv env) as [[settings | ] | e];
      [ | repeat walk; auto | auto].
    do 3 walk.
    destruct (createIyzicoService env settings) as [service | e]; [ | auto].
    do 4 walk.
    destruct (initiate3DSecurePayment service _) as [res | e]; [ | auto].
    rewrite !conclude_outcome, !conclude_quiet. auto. }
  destruct H as [-> ->]. auto.
Qed.

Ltac cause tac :=
  let H := fresh "H" in
  let Hst := fresh "Hst" in
  intros H Hst;
  first [ discriminate H
        | injection H as <-;
          first [discriminate Hst | split; [reflexivity | tac]] ].

(** X18. A 500 answer has a cause outside the validator and the
    inserts: the body was [null], or reading the body, creating the
    database client, loading the gateway settings, creating the gateway
    service or the gateway call itself threw.  Its text is the fixed
    one. *)
Theorem server_error_has_a_cause
    (IyzicoSettings : Type) (env : Env IyzicoSettings) (request : Request)
    (resp : Response) :
  outcome (POST env request) = Resolved resp ->
  status resp = 500%Z ->
  body resp = UnexpectedServerError
  /\ (json request = Resolved JsonNull
      \/ exists m,
           json request = Rejected (ThrownObject m)
           \/ createSupabaseServerClient env = Rejected (ThrownObject m)
           \/ getIyzicoSettingsFromEnv env = Rejected (ThrownObject m)
           \/ (exists settings,
                 createIyzicoService env settings = Rejected (ThrownObject m))
           \/ (exists settings service r,
                 createIyzicoService env settings = Resolved service
                 /\ initiate3DSecurePayment service r
                    = Rejected (ThrownObject m))).
Proof.
  rewrite POST_outcome. unfold tryBody. walk.
  destruct (json request) as [[ | errors | pr] | [ | m]] eqn:Hjson;
    cbn [outcome throw fst];
    [ cause ltac:(left; reflexivity)
    | repeat walk; cause idtac
    |
    | cause idtac
    | cause ltac:(right; exists m; left; reflexivity) ].
  do 3 walk.
  destruct (createSupabaseServerClient env) as [sb | [ | m]] eqn:Hsb;
    [ | cause idtac
      | cause ltac:(right; exists m; right; left; reflexivity) ].
  do 2 walk.
  destruct (outcome (validateBasketPrices sb (basketItems pr)))
    as [[items total | msg] | e] eqn:Hrun.
  - destruct (gt _ _); [repeat walk; cause idtac | ].
    do 2 walk.
    destruct (getIyzicoSettingsFromEnv env) as [[settings | ] | [ | m]]
      eqn:Hset;
      [ | repeat walk; cause idtac | cause idtac
        | cause ltac:(right; exists m; right; right; left; reflexivity) ].
    do 3 walk.
    destruct (createIyzicoService env settings) as [service | [ | m]]
      eqn:Hsvc;
      [ | cause idtac
        | cause ltac:(right; exists m; right; right; right; left;
                      exists settings; exact Hsvc) ].
    do 4 walk.
    destruct (initiate3DSecurePayment service _) as [res | [ | m]]
      eqn:Hcall;
      [ | cause idtac
        | cause ltac:(right; exists m; right; right; right; right;
                      eexists settings, service, _;
                      split; [exact Hsvc | exact Hcall]) ].
    rewrite conclude_outcome. destruct (success res); cause idtac.
  - repeat walk. cause idtac.
  - exfalso.
    pose proof (validateBasketPrices_outcome sb (basketItems pr)) as Hv.
    rewrite Hrun in Hv.
    destruct (fst (validateLoop sb (basketItems pr) [] zero)); discriminate.
Qed.

(** ** Sample runs *)

Lemma writes_follow_gateway_success_witness :
  In (GatewayCall
        (sanitized deployment paidRequest paid
           (acceptedBasket [line "1" (ofZ 100)] [lamp]) (ofZ 100)))
     (trace (POST deployment paidRequest))
  /\ success started = true
  /\ exists settings service,
       getIyzicoSettingsFromEnv deployment = Resolved (Some settings)
       /\ createIyzicoService deployment settings = Resolved service
       /\ initiate3DSecurePayment service
            (sanitized deployment paidRequest paid
               (acceptedBasket [line "1" (ofZ 100)] [lamp]) (ofZ 100))
          = Resolved started.
Proof.
  apply (@writes_follow_gateway_success unit deployment paidRequest orders
           (sanitized deployment paidRequest paid
              (acceptedBasket [line "1" (ofZ 100)] [lamp]) (ofZ 100))
           started).
  vm_compute. repeat (first [left; reflexivity | right]).
Defined.

Lemma ok_answer_needs_gateway_success_witness :
  exists settings service r res,
    getIyzicoSettingsFromEnv deployment = Resolved (Some settings)
    /\ createIyzicoService deployment settings = Resolved service
    /\ gatewayCalls (trace (POST deployment paidRequest)) = [r]
    /\ initiate3DSecurePayment service r = Resolved res
    /\ success res = true
    /\ ThreeDSecureStarted (paymentId started) (conversationId started)
         (htmlContent started) (threeDSHtmlContent started)
       = ThreeDSecureStarted (paymentId res) (conversationId res)
           (htmlContent res) (threeDSHtmlContent res).
Proof.
  apply (@ok_answer_needs_gateway_success unit deployment paidRequest
           {| status := 200;
              body := ThreeDSecureStarted (paymentId started)
                        (conversationId started) (htmlContent started)
                        (threeDSHtmlContent started) |});
    vm_compute; reflexivity.
Defined.

Lemma refusal_reaches_nothing_witness :
  gatewayCalls
    (trace (POST deployment
              (Sample.request
                 (Resolved
                    (Conforming
                       (checkout [line "1" (ofZ 100)] (ofZ 90)))))))
  = []
  /\ inserts
       (trace (POST deployment
                 (Sample.request
                    (Resolved
                       (Conforming
                          (checkout [line "1" (ofZ 100)] (ofZ 90)))))))
     = [].
Proof.
  apply (proj2 (@refusal_reaches_nothing unit deployment
                  (Sample.request
                     (Resolved
                        (Conforming
                           (checkout [line "1" (ofZ 100)] (ofZ 90))))))
           {| status := 400;
              body := TotalManipulation (ofZ 100) (ofZ 90) |});
    vm_compute; reflexivity.
Defined.

Lemma gateway_request_keeps_the_checkout_witness :
  exists pr,
    json paidRequest = Resolved (Conforming pr)
    /\ (orderNumber paid = orderNumber pr /\ currency paid = currency pr
        /\ installment paid = installment pr /\ userId paid = userId pr
        /\ buyer paid = buyer pr /\ billingAddress paid = billingAddress pr
        /\ shippingAddress paid = shippingAddress pr /\ card paid = card pr)
    /\ exists cb ipa ua,
         Some (lit "https://shop.example/api/payment/iyzico/callback")
         = Some cb
         /\ Some (lit "127.0.0.1") = Some ipa
         /\ Some (lit "Unknown") = Some ua
         /\ endsWith cb (lit "/api/payment/iyzico/callback") = true
         /\ JsString.truthy ipa = true /\ JsString.truthy ua = true.
Proof.
  apply (@gateway_request_keeps_the_checkout unit deployment paidRequest
           (sanitized deployment paidRequest paid
              (acceptedBasket [line "1" (ofZ 100)] [lamp]) (ofZ 100))).
  vm_compute. repeat (first [left; reflexivity | right]).
Defined.

Lemma charged_amount_close_to_stated_witness :
  le (Math_abs
        (sub (amount
                (sanitized deployment
                   (Sample.request
                      (Resolved
                         (Conforming
                            (checkout [line "1" (ofZ 100)]
                               (decimal 100005 3)))))
                   (checkout [line "1" (ofZ 100)] (decimal 100005 3))
                   (acceptedBasket [line "1" (ofZ 100)] [lamp])
                   (ofZ 100)))
             (amount (checkout [line "1" (ofZ 100)] (decimal 100005 3)))))
     (decimal 1 2) = true.
Proof.
  apply (@charged_amount_close_to_stated unit deployment
           (Sample.request
              (Resolved
                 (Conforming
                    (checkout [line "1" (ofZ 100)] (decimal 100005 3)))))
           (checkout [line "1" (ofZ 100)] (decimal 100005 3))
           (sanitized deployment
              (Sample.request
                 (Resolved
                    (Conforming
                       (checkout [line "1" (ofZ 100)] (decimal 100005 3)))))
              (checkout [line "1" (ofZ 100)] (decimal 100005 3))
              (acceptedBasket [line "1" (ofZ 100)] [lamp]) (ofZ 100))).
  - reflexivity.
  - vm_compute. repeat (first [left; reflexivity | right]).
  - reflexivity.
  - reflexivity.
Defined.

Lemma server_error_has_a_cause_witness :
  UnexpectedServerError = UnexpectedServerError
  /\ (json (Sample.request (Resolved JsonNull)) = Resolved JsonNull
      \/ exists m,
           json (Sample.request (Resolved JsonNull))
           = Rejected (ThrownObject m)
           \/ createSupabaseServerClient deployment
              = Rejected (ThrownObject m)
           \/ getIyzicoSettingsFromEnv deployment = Rejected (ThrownObject m)
           \/ (exists settings,
                 createIyzicoService deployment settings
                 = Rejected (ThrownObject m))
           \/ (exists settings service r,
                 createIyzicoService deployment settings = Resolved service
                 /\ initiate3DSecurePayment service r
                    = Rejected (ThrownObject m))).
Proof.
  apply (@server_error_has_a_cause unit deployment
           (Sample.request (Resolved JsonNull))
           {| status := 500; body := UnexpectedServerError |});
    vm_compute; reflexivity.
Defined.

End PaymentLaws.

(* ===================================================================== *)
(** * The magic-login handler, further *)
(* ===================================================================== *)

Module MagicLoginLaws.
Import MagicLogin Observing Sample.

Lemma in_mails (t : list Event) email url :
  In (SendEmail email url) t <-> In (email, url) (mails t).
Proof.
  induction t as [ | [ln | e b | e u] t IH]; cbn.
  - tauto.
  - rewrite <- IH. split; [intros [H | H]; [discriminate | exact H] | auto].
  - rewrite <- IH. split; [intros [H | H]; [discriminate | exact H] | auto].
  - rewrite <- IH. split; intros [H | H]; auto; left; congruence.
Qed.

Lemma in_linkRequests (t : list Event) email baseUrl :
  In (GenerateLink email baseUrl) t <-> In (email, baseUrl) (linkRequests t).
Proof.
  induction t as [ | [ln | e b | e u] t IH]; cbn.
  - tauto.
  - rewrite <- IH. split; [intros [H | H]; [discriminate | exact H] | auto].
  - rewrite <- IH. split; intros [H | H]; auto; left; congruence.
  - rewrite <- IH. split; [intros [H | H]; [discriminate | exact H] | auto].
Qed.

(** Every run of the handler, by what the collaborators answer. *)
Ltac runs env request :=
  unfold POST, tryBody, tryCatch, catchClause, bind, emit, await, ret,
    throw, outcome, trace;
  destruct (json request) as [[errors | email] | [ | m0]] eqn:Hjson;
    cbn [fst snd app];
  try (destruct (generateMagicLoginLink env email _)
         as [result | [ | m1]] eqn:Hgen; cbn [fst snd app];
       try (destruct (success result) eqn:Hok; cbn [negb fst snd app];
            try (destruct (sendMagicLoginEmail env email _)
                   as [[ | ] | [ | m2]] eqn:Hsend;
                 cbn [negb fst snd app]))).

(** X19. A mail is sent at most once per request, to the address that
    passed the schema, with the link the generator answered, and only
    after the generator reported success. *)
Theorem mail_goes_to_the_validated_address
    (env : Env) (request : Request) (email : jsstring)
    (url : option jsstring) :
  In (SendEmail email url) (trace (POST env request)) ->
  json request = Resolved (Conforming email)
  /\ mails (trace (POST env request)) = [(email, url)]
  /\ exists result,
       generateMagicLoginLink env email
         (orElse (NEXT_PUBLIC_APP_URL env) (lit "http://localhost:3000"))
       = Resolved result
       /\ success result = true
       /\ url = loginUrl result.
Proof.
  rewrite in_mails. revert email url. runs env request;
    intros email' url' H; cbn [mails] in *;
    try (destruct H as [H | []]; injection H as <- <-);
    try (destruct H);
    (split; [reflexivity | split; [reflexivity | ]]);
    exists result; auto.
Qed.

(** X20. A 200 answer means that the link generator reported success
    and the mailer accepted the mail: the one mail of the request went
    to the validated address with the generated link. *)
Theorem ok_answer_means_mail_accepted
    (env : Env) (request : Request) (resp : Response) :
  outcome (POST env request) = Resolved resp ->
  status resp = 200%Z ->
  exists email result,
    json request = Resolved (Conforming email)
    /\ generateMagicLoginLink env email
         (orElse (NEXT_PUBLIC_APP_URL env) (lit "http://localhost:3000"))
       = Resolved result
    /\ success result = true
    /\ sendMagicLoginEmail env email (loginUrl result) = Resolved true
    /\ mails (trace (POST env request)) = [(email, loginUrl result)].
Proof.
  runs env request; intros H Hst; try discriminate H;
    injection H as <-; try discriminate Hst.
  exists email, result. auto.
Qed.

(** X21. A 400 answer means that the body failed the schema; it lists
    the schema's errors, and no collaborator was called: no link was
    generated and no mail sent. *)
Theorem bad_request_calls_nobody
    (env : Env) (request : Request) (resp : Response) :
  outcome (POST env request) = Resolved resp ->
  status resp = 400%Z ->
  exists errors,
    json request = Resolved (SchemaViolation errors)
    /\ body resp = Failed (Some invalidEmailText) (Some errors)
    /\ trace (POST env request) = [].
Proof.
  runs env request; intros H Hst; try discriminate H;
    injection H as <-; try discriminate Hst.
  exists errors. auto.
Qed.

(** X22. The link generator is asked at most once per request, for the
    address that passed the schema, and always with a base URL that is
    not empty: an unset or empty [NEXT_PUBLIC_APP_URL] gives
    [http://localhost:3000]. *)
Theorem link_request_has_a_base_url
    (env : Env) (request : Request) (email baseUrl : jsstring) :
  In (GenerateLink email baseUrl) (trace (POST env request)) ->
  json request = Resolved (Conforming email)
  /\ linkRequests (trace (POST env request)) = [(email, baseUrl)]
  /\ JsString.truthy baseUrl = true
  /\ (JsString.truthy (orElse (NEXT_PUBLIC_APP_URL env) []) = false ->
      baseUrl = lit "http://localhost:3000").
Proof.
  rewrite in_linkRequests. revert email baseUrl. runs env request;
    intros email' base' H; cbn [linkRequests] in *;
    try (destruct H as [H | []]; injection H as <- <-);
    try (destruct H);
    (split; [reflexivity | split; [reflexivity | split ]]);
    try (apply PaymentLaws.orElse_truthy; reflexivity);
    destruct (NEXT_PUBLIC_APP_URL env) as [[ | c s] | ]; cbn;
    try reflexivity; discriminate.
Qed.

(** ** Sample runs *)

Lemma mail_goes_to_the_validated_address_witness :
  json goodLogin = Resolved (Conforming (lit "a@b.co"))
  /\ mails (trace (POST (mailer None) goodLogin))
     = [(lit "a@b.co",
         Some (lit "http://localhost:3000/auth/magic?token=t0k3n"))]
  /\ exists result,
       generateMagicLoginLink (mailer None) (lit "a@b.co")
         (orElse (NEXT_PUBLIC_APP_URL (mailer None))
            (lit "http://localhost:3000"))
       = Resolved result
       /\ success result = true
       /\ Some (lit "http://localhost:3000/auth/magic?token=t0k3n")
          = loginUrl result.
Proof.
  apply (@mail_goes_to_the_validated_address (mailer None) goodLogin
           (lit "a@b.co")
           (Some (lit "http://localhost:3000/auth/magic?token=t0k3n"))).
  vm_compute. repeat (first [left; reflexivity | right]).
Defined.

Lemma ok_answer_means_mail_accepted_witness :
  exists email result,
    json goodLogin = Resolved (Conforming email)
    /\ generateMagicLoginLink (mailer None) email
         (orElse (NEXT_PUBLIC_APP_URL (mailer None))
            (lit "http://localhost:3000"))
       = Resolved result
    /\ success result = true
    /\ sendMagicLoginEmail (mailer None) email (loginUrl result)
       = Resolved true
    /\ mails (trace (POST (mailer None) goodLogin))
       = [(email, loginUrl result)].
Proof.
  apply (@ok_answer_means_mail_accepted (mailer None) goodLogin
           {| status := 200; body := Succeeded confirmationText None |});
    vm_compute; reflexivity.
Defined.

Lemma bad_request_calls_nobody_witness :
  exists errors,
    json (loginRequest (Resolved (SchemaViolation [lit "Invalid email"])))
    = Resolved (SchemaViolation errors)
    /\ Failed (Some invalidEmailText) (Some [lit "Invalid email"])
       = Failed (Some invalidEmailText) (Some errors)
    /\ trace (POST (mailer None)
                (loginRequest
                   (Resolved (SchemaViolation [lit "Invalid email"]))))
       = [].
Proof.
  apply (@bad_request_calls_nobody (mailer None)
           (loginRequest (Resolved (SchemaViolation [lit "Invalid email"])))
           {| status := 400;
              body := Failed (Some invalidEmailText)
                        (Some [lit "Invalid email"]) |});
    vm_compute; reflexivity.
Defined.

Lemma link_request_has_a_base_url_witness :
  json goodLogin = Resolved (Conforming (lit "a@b.co"))
  /\ linkRequests (trace (POST (mailer None) goodLogin))
     = [(lit "a@b.co", lit "http://localhost:3000")]
  /\ JsString.truthy (lit "http://localhost:3000") = true
  /\ (JsString.truthy (orElse (NEXT_PUBLIC_APP_URL (mailer None)) [])
      = false ->
      lit "http://localhost:3000" = lit "http://localhost:3000").
Proof.
  apply (@link_request_has_a_base_url (mailer None) goodLogin
           (lit "a@b.co") (lit "http://localhost:3000")).
  vm_compute. repeat (first [left; reflexivity | right]).
Defined.

End MagicLoginLaws.
